(* Shallow embedding of the native call-blocking layer of StopPubbySi
   (Kotlin: CallBlockerModule, CallBlockerService) and of its JS bridge
   wrapper (CallBlocker in the React Native client). *)

From Stdlib Require Import ZArith Ascii String.
From stdpp Require Import base gmap list strings.

Open Scope string_scope.
#[local] Set Warnings "-register-all".

(* ------------------------------------------------------------------ *)
(** * JSON values (org.json as bundled with Android)                   *)
(* ------------------------------------------------------------------ *)

Module Json.

(** A JSON value held by a [JSONArray] or [JSONObject]. Numbers are the
    [Long] values the code writes ([System.currentTimeMillis()]). *)
Inductive jval :=
| JNull
| JBool (b : bool)
| JNum (z : Z)
| JStr (s : string)
| JArr (l : list jval)
| JObj (fields : list (string * jval)).

Definition digit_char (d : Z) : ascii := ascii_of_nat (48 + Z.to_nat d)%nat.

(** Decimal text of a non-negative integer; 64 digits of fuel cover
    every [Long]. *)
Fixpoint pos_text (fuel : nat) (n : Z) (acc : string) : string :=
  match fuel with
  | O => acc
  | S f =>
      let acc' := String (digit_char (n mod 10)) acc in
      if (n <? 10)%Z then acc' else pos_text f (n / 10) acc'
  end.

Definition z_text (z : Z) : string :=
  if (z <? 0)%Z then String "-" (pos_text 64 (- z) EmptyString)
  else pos_text 64 z EmptyString.

Definition dq : ascii := "034".
Definition bslash : ascii := "092".

(** Lower-case hexadecimal digit of [n < 16]. *)
Definition hex_digit (n : nat) : ascii :=
  if (n <? 10)%nat then ascii_of_nat (48 + n) else ascii_of_nat (87 + n).

(** String quoting of [JSONStringer.string]: the quote, the backslash
    and '/' get a backslash; tab, backspace, newline, carriage return
    and form feed become [\t], [\b], [\n], [\r], [\f]; any other
    character up to 0x1F becomes [\u00XX] (format "%04x"); every other
    character is kept. *)
Fixpoint escape (s : string) : string :=
  match s with
  | EmptyString => EmptyString
  | String c r =>
      let n := nat_of_ascii c in
      if Ascii.eqb c dq || Ascii.eqb c bslash || Ascii.eqb c "/"
      then String bslash (String c (escape r))
      else if (n =? 9)%nat then String bslash (String "t" (escape r))
      else if (n =? 8)%nat then String bslash (String "b" (escape r))
      else if (n =? 10)%nat then String bslash (String "n" (escape r))
      else if (n =? 13)%nat then String bslash (String "r" (escape r))
      else if (n =? 12)%nat then String bslash (String "f" (escape r))
      else if (n <=? 31)%nat
      then String bslash (String "u" (String "0" (String "0"
             (String (hex_digit (n / 16)) (String (hex_digit (n mod 16)) (escape r))))))
      else String c (escape r)
  end.

Definition quote (s : string) : string :=
  String dq (String.append (escape s) (String dq EmptyString)).

(** [toString()] of a JSON value. *)
Fixpoint to_json (v : jval) : string :=
  match v with
  | JNull => "null"
  | JBool b => if b then "true" else "false"
  | JNum z => z_text z
  | JStr s => quote s
  | JArr l =>
      String.append "["
        (String.append
           ((fix go (l : list jval) : string :=
               match l with
               | [] => EmptyString
               | [x] => to_json x
               | x :: r => String.append (to_json x) (String "," (go r))
               end) l) "]")
  | JObj fs =>
      String.append "{"
        (String.append
           ((fix go (fs : list (string * jval)) : string :=
               match fs with
               | [] => EmptyString
               | [(k, x)] => String.append (quote k) (String ":" (to_json x))
               | (k, x) :: r =>
                   String.append (quote k)
                     (String ":" (String.append (to_json x) (String "," (go r))))
               end) fs) "}")
  end.

(** [JSONArray.getString(i)] on Android: the element coerced to text
    ([JSON.toString]); a string is returned as is, [JSONObject.NULL]
    as "null". It does not throw for an element that exists. *)
Definition getString (v : jval) : string :=
  match v with
  | JStr s => s
  | _ => to_json v
  end.

(** [JSONObject.has(key)]. *)
Definition has (fs : list (string * jval)) (key : string) : bool :=
  existsb (fun kv => String.eqb (fst kv) key) fs.

End Json.

Import Json.

(* ------------------------------------------------------------------ *)
(** * SharedPreferences                                                *)
(* ------------------------------------------------------------------ *)

Module Prefs.

(** The text of a string preference, as the [JSONArray(String)]
    constructor sees it: [TArr l] is the text [JSONArray.toString()]
    writes for the elements [l] (the literal "[]" is [TArr []]), and
    more generally any text the constructor accepts, represented by the
    array it yields; [TRaw s] is a text the constructor rejects with a
    [JSONException]. The Android tokenizer is lenient: some text that
    is not valid JSON, such as [a], is accepted (read as the array of
    the one string "a") and so is a [TArr], not a [TRaw]. *)
Inductive text :=
| TArr (l : list jval)
| TRaw (s : string).

Inductive pref_value :=
| PBool (b : bool)
| PInt (z : Z)
| PStr (t : text).

(** One SharedPreferences file: key to value. *)
Abbreviation shared_prefs := (gmap string pref_value).

(** Exceptions the preference and JSON reads can raise. *)
Inductive exn := ClassCastException | JSONException.

(** [prefs.getString(key, default)]: a value of another type raises
    [ClassCastException]. *)
Definition getString (p : shared_prefs) (key : string) (default : text) : exn + text :=
  match p !! key with
  | None => inr default
  | Some (PStr t) => inr t
  | Some _ => inl ClassCastException
  end.

Definition getBoolean (p : shared_prefs) (key : string) (default : bool) : exn + bool :=
  match p !! key with
  | None => inr default
  | Some (PBool b) => inr b
  | Some _ => inl ClassCastException
  end.

Definition getInt (p : shared_prefs) (key : string) (default : Z) : exn + Z :=
  match p !! key with
  | None => inr default
  | Some (PInt z) => inr z
  | Some _ => inl ClassCastException
  end.

(** [JSONArray(json)]. *)
Definition JSONArray (t : text) : exn + list jval :=
  match t with
  | TArr l => inr l
  | TRaw _ => inl JSONException
  end.

(** [JSONArray.toString()]. *)
Definition toString (l : list jval) : text := TArr l.

End Prefs.

Import Prefs.

(* ------------------------------------------------------------------ *)
(** * Kotlin string operations                                        *)
(* ------------------------------------------------------------------ *)

Module KString.

Definition is_digit (c : ascii) : bool :=
  ((48 <=? nat_of_ascii c) && (nat_of_ascii c <=? 57))%nat.

(** [s.replace(Regex("[^0-9]"), "")]. *)
Fixpoint replace_non_digits (s : string) : string :=
  match s with
  | EmptyString => EmptyString
  | String c r => if is_digit c then String c (replace_non_digits r) else replace_non_digits r
  end.

(** [s.replace(Regex("[^0-9+]"), "")]. *)
Fixpoint replace_non_digits_plus (s : string) : string :=
  match s with
  | EmptyString => EmptyString
  | String c r =>
      if is_digit c || Ascii.eqb c "+"
      then String c (replace_non_digits_plus r) else replace_non_digits_plus r
  end.

(** [s.takeLast(n)] = [s.substring(length - min(n, length))]. *)
Definition takeLast (n : nat) (s : string) : string :=
  let k := Nat.min n (String.length s) in
  String.substring (String.length s - k)%nat k s.

(** [s.endsWith(suffix)]. *)
Definition endsWith (s suffix : string) : bool :=
  (String.length suffix <=? String.length s)%nat
  && String.eqb
       (String.substring (String.length s - String.length suffix)%nat
          (String.length suffix) s) suffix.

(** [s.startsWith(prefix)]. *)
Definition startsWith (s pre : string) : bool := String.prefix pre s.

(** [s.contains(other)]: [other] occurs at some index of [s]. *)
Fixpoint contains (s other : string) : bool :=
  String.prefix other s
  || match s with
     | EmptyString => false
     | String _ r => contains r other
     end.

(** [s.substring(1)]. *)
Definition drop1 (s : string) : string :=
  match s with
  | EmptyString => EmptyString
  | String _ r => r
  end.

End KString.

Import KString.

(* ------------------------------------------------------------------ *)
(** * Current generation: file "call_blocker_prefs"                    *)
(*    CallBlockerModule.kt (second class), CallBlockerService.kt       *)
(*    (first class), InCallActivity.kt                                 *)
(* ------------------------------------------------------------------ *)

Module Current.

Definition PREFS_NAME := "call_blocker_prefs".
Definition PREF_BLOCKED_NUMBERS := "blocked_numbers".
Definition PREF_AUTO_BLOCK_ENABLED := "auto_block_enabled".
Definition PREF_BLOCK_UNKNOWN := "block_unknown_numbers".
Definition PREF_AI_SCREENING_ENABLED := "ai_screening_enabled".
Definition PREF_AI_SCREENING_DELAY := "ai_screening_delay".
Definition PREF_BLOCKED_CALL_HISTORY := "blocked_call_history".
Definition PREF_PENDING_SCREENINGS := "pending_screenings".

(** ** CallBlockerService *)

(** [normalizePhoneNumber]: digits only, last 9 of them. *)
Definition normalizePhoneNumber (number : string) : string :=
  takeLast 9 (replace_non_digits number).

(** The test of the loop body of [isNumberBlocked]. *)
Definition number_matches (normalizedNumber blocked : string) : bool :=
  endsWith normalizedNumber blocked || endsWith blocked normalizedNumber
  || contains normalizedNumber blocked || contains blocked normalizedNumber.

(** [for (i in 0 until blockedNumbers.length())], returning [true] at
    the first match. *)
Fixpoint scan_blocked (normalizedNumber : string) (blockedNumbers : list jval) : bool :=
  match blockedNumbers with
  | [] => false
  | v :: rest =>
      let blocked := normalizePhoneNumber (Json.getString v) in
      if number_matches normalizedNumber blocked then true
      else scan_blocked normalizedNumber rest
  end.

(** [isNumberBlocked]: every exception of the body is caught and ends
    in [return false]. *)
Definition isNumberBlocked (prefs : shared_prefs) (phoneNumber : string) : bool :=
  match Prefs.getString prefs PREF_BLOCKED_NUMBERS (TArr []) with
  | inl _ => false
  | inr json =>
      match JSONArray json with
      | inl _ => false
      | inr blockedNumbers =>
          scan_blocked (normalizePhoneNumber phoneNumber) blockedNumbers
      end
  end.

(** The [JSONObject] built by [addToBlockedHistory]. *)
Definition history_entry (phoneNumber : string) (blocked_at : Z) (reason : string) : jval :=
  JObj [("phone_number", JStr phoneNumber); ("blocked_at", JNum blocked_at);
        ("reason", JStr reason)].

(** [addToBlockedHistory]: the new entry first, then at most 99 of the
    previous entries; [now] is [System.currentTimeMillis()]. On an
    exception the store is left as it was. *)
Definition addToBlockedHistory (prefs : shared_prefs) (phoneNumber reason : string) (now : Z) : shared_prefs :=
  match Prefs.getString prefs PREF_BLOCKED_CALL_HISTORY (TArr []) with
  | inl _ => prefs
  | inr json =>
      match JSONArray json with
      | inl _ => prefs
      | inr history =>
          let newHistory := history_entry phoneNumber now reason
                              :: take (Nat.min (length history) 99) history in
          <[PREF_BLOCKED_CALL_HISTORY := PStr (toString newHistory)]> prefs
      end
  end.

(** ** CallBlockerModule (bridge) *)

(** Settings map resolved by [getSettings]. *)
Record settings := {
  auto_block_spam : bool;
  block_unknown_numbers : bool;
  ai_screening_enabled : bool;
  ai_screening_delay : Z
}.

(** [ReadableArray] of the JS strings; [None] is a JS [null]. *)
Definition readable_array := list (option string).

(** [updateBlockedNumbers]: [numbers.getString(i)?.let { add }] keeps
    the non-null elements; resolves [true]. *)
Definition updateBlockedNumbers (numbers : readable_array) (prefs : shared_prefs) : shared_prefs * bool :=
  let numberList := omap (fun o => o) numbers in
  (<[PREF_BLOCKED_NUMBERS := PStr (toString (map JStr numberList))]> prefs, true).

Definition setAutoBlockEnabled (enabled : bool) (prefs : shared_prefs) : shared_prefs * bool :=
  (<[PREF_AUTO_BLOCK_ENABLED := PBool enabled]> prefs, true).

(** [getSettings]: a [ClassCastException] of a read rejects the
    promise ([inl]). *)
Definition getSettings (prefs : shared_prefs) : exn + settings :=
  match getBoolean prefs PREF_AUTO_BLOCK_ENABLED true with
  | inl e => inl e
  | inr a =>
  match getBoolean prefs PREF_BLOCK_UNKNOWN false with
  | inl e => inl e
  | inr b =>
  match getBoolean prefs PREF_AI_SCREENING_ENABLED false with
  | inl e => inl e
  | inr c =>
  match getInt prefs PREF_AI_SCREENING_DELAY 3 with
  | inl e => inl e
  | inr d => inr {| auto_block_spam := a; block_unknown_numbers := b;
                    ai_screening_enabled := c; ai_screening_delay := d |}
  end end end end.

End Current.

(* ------------------------------------------------------------------ *)
(** * AI generation: file "StopPubbySiPrefs"                           *)
(*    CallBlockerModule.kt (first class), service of part_004          *)
(* ------------------------------------------------------------------ *)

Module AIGen.

Definition PREFS_NAME := "StopPubbySiPrefs".
Definition BLOCKED_NUMBERS_KEY := "blocked_numbers".
Definition BLOCK_UNKNOWN_KEY := "block_unknown_numbers".
Definition AUTO_BLOCK_KEY := "auto_block_spam".
Definition AI_SCREENING_KEY := "ai_screening_enabled".
Definition AI_SCREENING_DELAY_KEY := "ai_screening_delay".

(** [updateBlockedNumbers]: [jsonArray.put(numbers.getString(i))]; a
    JS [null] is put as a null element, written as JSON [null]. *)
Definition updateBlockedNumbers (numbers : Current.readable_array) (prefs : shared_prefs)
  : shared_prefs * bool :=
  let jsonArray := map (fun o => match o with Some s => JStr s | None => JNull end) numbers in
  (<[BLOCKED_NUMBERS_KEY := PStr (toString jsonArray)]> prefs, true).

Definition setAutoBlockEnabled (enabled : bool) (prefs : shared_prefs) : shared_prefs * bool :=
  (<[AUTO_BLOCK_KEY := PBool enabled]> prefs, true).

Definition getSettings (prefs : shared_prefs) : exn + Current.settings :=
  match getBoolean prefs AUTO_BLOCK_KEY true with
  | inl e => inl e
  | inr a =>
  match getBoolean prefs BLOCK_UNKNOWN_KEY false with
  | inl e => inl e
  | inr b =>
  match getBoolean prefs AI_SCREENING_KEY false with
  | inl e => inl e
  | inr c =>
  match getInt prefs AI_SCREENING_DELAY_KEY 3 with
  | inl e => inl e
  | inr d => inr {| Current.auto_block_spam := a; Current.block_unknown_numbers := b;
                    Current.ai_screening_enabled := c; Current.ai_screening_delay := d |}
  end end end end.

End AIGen.

(* ------------------------------------------------------------------ *)
(** * First generation: file "StopPubbySiPrefs"                        *)
(*    CallBlockerModule of part_002, CallBlockerService of part_003    *)
(* ------------------------------------------------------------------ *)

Module Legacy.

Definition PREFS_NAME := "StopPubbySiPrefs".
Definition BLOCKED_NUMBERS_KEY := "blocked_numbers".
Definition BLOCK_UNKNOWN_KEY := "block_unknown_numbers".
Definition AUTO_BLOCK_KEY := "auto_block_spam".

(** ** CallBlockerModule (bridge) *)

Definition updateBlockedNumbers (numbers : Current.readable_array) (prefs : shared_prefs)
  : shared_prefs * bool :=
  let jsonArray := map (fun o => match o with Some s => JStr s | None => JNull end) numbers in
  (<[BLOCKED_NUMBERS_KEY := PStr (toString jsonArray)]> prefs, true).

(** ** CallBlockerService *)

(** [normalizePhoneNumber]: digits and '+', then a 10-character number
    starting with 0 becomes "+33" followed by its last 9 characters. *)
Definition normalizePhoneNumber (number : string) : string :=
  let normalized := replace_non_digits_plus number in
  if startsWith normalized "0" && (String.length normalized =? 10)%nat
  then String.append "+33" (drop1 normalized)
  else normalized.

Fixpoint scan_blocked (normalizedNumber : string) (blockedNumbers : list jval) : bool :=
  match blockedNumbers with
  | [] => false
  | v :: rest =>
      let blockedNumber := normalizePhoneNumber (Json.getString v) in
      if String.eqb normalizedNumber blockedNumber
         || endsWith normalizedNumber blockedNumber
         || endsWith blockedNumber normalizedNumber
      then true
      else scan_blocked normalizedNumber rest
  end.

(** [shouldBlockNumber]: only the JSON parsing and the loop are inside
    the [try]; the two preference reads are outside it, so their
    [ClassCastException] propagates ([inl]). *)
Definition shouldBlockNumber (phoneNumber : string) (prefs : shared_prefs) : exn + bool :=
  let normalizedNumber := normalizePhoneNumber phoneNumber in
  match Prefs.getString prefs BLOCKED_NUMBERS_KEY (TArr []) with
  | inl e => inl e
  | inr blockedNumbersJson =>
      let found :=
        match JSONArray blockedNumbersJson with
        | inl _ => false
        | inr blockedNumbers => scan_blocked normalizedNumber blockedNumbers
        end in
      if found then inr true
      else
        match getBoolean prefs BLOCK_UNKNOWN_KEY false with
        | inl e => inl e
        | inr blockUnknown => inr (if blockUnknown then true else false)
        end
  end.

(** [while (history.length() > 100) history.remove(0)]. *)
Fixpoint trim_front (history : list jval) : list jval :=
  match history with
  | [] => []
  | _ :: rest => if (100 <? length history)%nat then trim_front rest else history
  end.

(** The [JSONObject] built by [saveBlockedCall]: no reason field. *)
Definition history_entry (phoneNumber : string) (blocked_at : Z) : jval :=
  JObj [("phone_number", JStr phoneNumber); ("blocked_at", JNum blocked_at)].

(** [saveBlockedCall]: append, then drop from the front down to 100
    entries. The [getString] is outside the [try]. *)
Definition saveBlockedCall (prefs : shared_prefs) (phoneNumber : string) (now : Z)
  : exn + shared_prefs :=
  match Prefs.getString prefs "blocked_history" (TArr []) with
  | inl e => inl e
  | inr historyJson =>
      match JSONArray historyJson with
      | inl _ => inr prefs
      | inr history =>
          let history' := trim_front (history ++ [history_entry phoneNumber now]) in
          inr (<["blocked_history" := PStr (toString history')]> prefs)
      end
  end.

End Legacy.

(* ------------------------------------------------------------------ *)
(** * Storage layout of the native components                          *)
(* ------------------------------------------------------------------ *)

Module Layout.

(** A native component: the SharedPreferences file it opens with
    [getSharedPreferences(name, MODE_PRIVATE)] and the keys it reads or
    writes there. *)
Record component := {
  comp_name : string;
  prefs_file : string;
  keys : list string
}.

Inductive generation := GenLegacy | GenAI | GenCurrent.

(** part_002 [CallBlockerModule] ([getPrefs()]). *)
Definition legacy_module : component :=
  {| comp_name := "CallBlockerModule (part_002)"; prefs_file := Legacy.PREFS_NAME;
     keys := [Legacy.BLOCKED_NUMBERS_KEY; Legacy.AUTO_BLOCK_KEY;
              Legacy.BLOCK_UNKNOWN_KEY; "blocked_history"] |}.

(** part_003 [CallBlockerService], and its copy in the second class of
    CallBlockerService.kt. *)
Definition legacy_service : component :=
  {| comp_name := "CallBlockerService (part_003)"; prefs_file := Legacy.PREFS_NAME;
     keys := [Legacy.AUTO_BLOCK_KEY; Legacy.BLOCKED_NUMBERS_KEY;
              Legacy.BLOCK_UNKNOWN_KEY; "blocked_history"] |}.

(** First class of CallBlockerModule.kt ([getPrefs()]). *)
Definition ai_module : component :=
  {| comp_name := "CallBlockerModule (CallBlockerModule.kt, first class)";
     prefs_file := AIGen.PREFS_NAME;
     keys := [AIGen.BLOCKED_NUMBERS_KEY; AIGen.AUTO_BLOCK_KEY; AIGen.BLOCK_UNKNOWN_KEY;
              AIGen.AI_SCREENING_KEY; AIGen.AI_SCREENING_DELAY_KEY;
              "pending_screenings"; "blocked_history"] |}.

(** part_004 [CallBlockerService]. *)
Definition ai_service : component :=
  {| comp_name := "CallBlockerService (part_004)"; prefs_file := "StopPubbySiPrefs";
     keys := [AIGen.AUTO_BLOCK_KEY; AIGen.AI_SCREENING_KEY; AIGen.AI_SCREENING_DELAY_KEY;
              "pending_screenings"; AIGen.BLOCKED_NUMBERS_KEY; "blocked_history"] |}.

(** Second class of CallBlockerModule.kt ([prefs] field). *)
Definition current_module : component :=
  {| comp_name := "CallBlockerModule (CallBlockerModule.kt, second class)";
     prefs_file := Current.PREFS_NAME;
     keys := [Current.PREF_BLOCKED_NUMBERS; Current.PREF_AUTO_BLOCK_ENABLED;
              Current.PREF_BLOCK_UNKNOWN; Current.PREF_AI_SCREENING_ENABLED;
              Current.PREF_AI_SCREENING_DELAY; Current.PREF_BLOCKED_CALL_HISTORY;
              Current.PREF_PENDING_SCREENINGS] |}.

(** First class of CallBlockerService.kt ([onCreate]). *)
Definition current_service : component :=
  {| comp_name := "CallBlockerService (CallBlockerService.kt, first class)";
     prefs_file := "call_blocker_prefs";
     keys := [Current.PREF_AUTO_BLOCK_ENABLED; Current.PREF_BLOCK_UNKNOWN;
              Current.PREF_AI_SCREENING_ENABLED; Current.PREF_AI_SCREENING_DELAY;
              Current.PREF_BLOCKED_NUMBERS; Current.PREF_BLOCKED_CALL_HISTORY;
              Current.PREF_PENDING_SCREENINGS] |}.

(** The Kotlin templates that the Expo config plugin in
    CallBlockerModule.ts writes into the Android project. The
    [CALL_BLOCKER_MODULE] template ([prefs] field). *)
Definition plugin_module : component :=
  {| comp_name := "CallBlockerModule (CALL_BLOCKER_MODULE template)";
     prefs_file := "call_blocker_prefs";
     keys := [Current.PREF_BLOCKED_NUMBERS; Current.PREF_AUTO_BLOCK_ENABLED;
              Current.PREF_BLOCK_UNKNOWN; Current.PREF_AI_SCREENING_ENABLED;
              Current.PREF_AI_SCREENING_DELAY; Current.PREF_BLOCKED_CALL_HISTORY;
              Current.PREF_PENDING_SCREENINGS] |}.

(** The [CALL_BLOCKER_SERVICE] template ([onCreate]). *)
Definition plugin_service : component :=
  {| comp_name := "CallBlockerService (CALL_BLOCKER_SERVICE template)";
     prefs_file := "call_blocker_prefs";
     keys := [Current.PREF_AUTO_BLOCK_ENABLED; Current.PREF_BLOCK_UNKNOWN;
              Current.PREF_BLOCKED_NUMBERS; Current.PREF_BLOCKED_CALL_HISTORY] |}.

(** The [INCALL_ACTIVITY] template ([onCreate]); the [INCALL_SERVICE]
    template opens no preferences. *)
Definition plugin_incall : component :=
  {| comp_name := "InCallActivity (INCALL_ACTIVITY template)";
     prefs_file := "call_blocker_prefs";
     keys := [Current.PREF_AI_SCREENING_ENABLED; Current.PREF_AI_SCREENING_DELAY] |}.

(** InCallActivity.kt ([onCreate]). *)
Definition current_incall : component :=
  {| comp_name := "InCallActivity"; prefs_file := "call_blocker_prefs";
     keys := [Current.PREF_AI_SCREENING_ENABLED; Current.PREF_AI_SCREENING_DELAY;
              Current.PREF_BLOCKED_NUMBERS] |}.

Definition bridge_module (g : generation) : component :=
  match g with
  | GenLegacy => legacy_module
  | GenAI => ai_module
  | GenCurrent => current_module
  end.

Definition components (g : generation) : list component :=
  match g with
  | GenLegacy => [legacy_module; legacy_service]
  | GenAI => [ai_module; ai_service]
  | GenCurrent => [current_module; current_service; current_incall;
                   plugin_module; plugin_service; plugin_incall]
  end.

Definition all_components : list component :=
  components GenLegacy ++ components GenAI ++ components GenCurrent.

End Layout.

(* ------------------------------------------------------------------ *)
(** * JS wrapper [CallBlocker] (part_000; CallBlockerModule.ts has a    *)
(*    subset of the same operations, written the same way)             *)
(* ------------------------------------------------------------------ *)

Module JsBridge.

Inductive jsval :=
| VBool (b : bool)
| VNum (z : Z)
| VNull
| VStr (s : string)
| VArr (l : list jsval)
| VObj (fields : list (string * jsval)).

(** The promise-returning functions of [CallBlocker], with their
    arguments. *)
Inductive op :=
| isCallScreeningServiceEnabled
| requestCallScreeningRole
| updateBlockedNumbers (numbers : list string)
| setAutoBlockEnabled (enabled : bool)
| setBlockUnknownNumbers (enabled : bool)
| setAIScreeningEnabled (enabled : bool)
| isAIScreeningEnabled
| setAIScreeningDelay (delaySeconds : Z)
| getAIScreeningDelay
| getPendingScreenings
| clearPendingScreenings
| getBlockedCallHistory
| clearBlockedCallHistory
| getSettings.

(** What the call into [NativeModules.CallBlockerModule] does: resolve
    with a value, or throw / reject (a missing native module makes the
    call throw a [TypeError] inside the [try]). *)
Inductive native_outcome :=
| Resolves (v : jsval)
| Throws.

Inductive promise :=
| Resolved (v : jsval)
| Rejected.

Record call_result := {
  native_invoked : bool;
  result : promise
}.

(** The value each function returns both on a non-Android platform and
    in its [catch]. *)
Definition fallback (o : op) : jsval :=
  match o with
  | getAIScreeningDelay => VNum 3
  | getPendingScreenings | getBlockedCallHistory => VArr []
  | getSettings => VNull
  | _ => VBool false
  end.

(** The body shared by every function:
    [if (Platform.OS !== 'android') return d;
     try { return await CallBlockerModule.f(..) } catch { return d }]. *)
Definition guarded (os : string) (d : jsval) (native : native_outcome) : call_result :=
  if negb (String.eqb os "android")
  then {| native_invoked := false; result := Resolved d |}
  else match native with
       | Resolves v => {| native_invoked := true; result := Resolved v |}
       | Throws => {| native_invoked := true; result := Resolved d |}
       end.

Definition CallBlocker (os : string) (o : op) (native : native_outcome) : call_result :=
  guarded os (fallback o) native.

(** [isSupported]: synchronous, no native call. *)
Definition isSupported (os : string) : bool := String.eqb os "android".

End JsBridge.

(* ------------------------------------------------------------------ *)
(** * JSONObject field access (org.json as bundled with Android)       *)
(* ------------------------------------------------------------------ *)

Module JsonObject.

Abbreviation fields := (list (string * jval)).

(** The value stored under [name] ([JSONObject] keeps one value per
    name). *)
Fixpoint get_field (obj : fields) (name : string) : option jval :=
  match obj with
  | [] => None
  | (k, v) :: r => if String.eqb k name then Some v else get_field r name
  end.

(** [obj.getString(name)]: a missing name throws; a present value is
    coerced to text ([JSON.toString]). *)
Definition getString (obj : fields) (name : string) : exn + string :=
  match get_field obj name with
  | None => inl JSONException
  | Some v => inr (Json.getString v)
  end.

Definition digit_value (c : ascii) : Z := Z.of_nat (nat_of_ascii c - 48).

Fixpoint parse_digits (s : string) (acc : Z) : option Z :=
  match s with
  | EmptyString => Some acc
  | String c r => if is_digit c then parse_digits r (acc * 10 + digit_value c)%Z else None
  end.

(** Decimal integer text: an optional '-' and at least one digit. *)
Definition parse_long (s : string) : option Z :=
  match s with
  | String "-" (String c r) =>
      if is_digit c then option_map Z.opp (parse_digits (String c r) 0) else None
  | String c _ => if is_digit c then parse_digits s 0 else None
  | EmptyString => None
  end.

(** [obj.getLong(name)] ([JSON.toLong]): a number is returned, a string
    is parsed; anything else, or a missing name, throws. For a string
    only an optional '-' followed by decimal digits is parsed here:
    other spellings that [JSON.toLong] accepts through [Double.valueOf]
    (a '+' sign, a fraction such as "7.0", an exponent, surrounding
    blanks) throw in this model. The code itself stores these fields
    as numbers. *)
Definition getLong (obj : fields) (name : string) : exn + Z :=
  match get_field obj name with
  | Some (JNum z) => inr z
  | Some (JStr s) => match parse_long s with Some z => inr z | None => inl JSONException end
  | _ => inl JSONException
  end.

(** [obj.put(name, value)]: an existing name keeps its position and
    gets the new value; a new name is appended. *)
Fixpoint put (obj : fields) (name : string) (value : jval) : fields :=
  match obj with
  | [] => [(name, value)]
  | (k, v) :: r => if String.eqb k name then (k, value) :: r else (k, v) :: put r name value
  end.

(** [array.getJSONObject(i)]: the element must be an object. *)
Definition getJSONObject (v : jval) : exn + fields :=
  match v with
  | JObj obj => inr obj
  | _ => inl JSONException
  end.

End JsonObject.

(* ------------------------------------------------------------------ *)
(** * Current generation: the other bridge methods                     *)
(*    (CallBlockerModule.kt, second class)                             *)
(* ------------------------------------------------------------------ *)

Module CurrentBridge.

Import Current.

Definition setBlockUnknownNumbers (enabled : bool) (prefs : shared_prefs) : shared_prefs * bool :=
  (<[PREF_BLOCK_UNKNOWN := PBool enabled]> prefs, true).

Definition setAIScreeningEnabled (enabled : bool) (prefs : shared_prefs) : shared_prefs * bool :=
  (<[PREF_AI_SCREENING_ENABLED := PBool enabled]> prefs, true).

Definition isAIScreeningEnabled (prefs : shared_prefs) : exn + bool :=
  getBoolean prefs PREF_AI_SCREENING_ENABLED false.

Definition setAIScreeningDelay (delaySeconds : Z) (prefs : shared_prefs) : shared_prefs * bool :=
  (<[PREF_AI_SCREENING_DELAY := PInt delaySeconds]> prefs, true).

Definition getAIScreeningDelay (prefs : shared_prefs) : exn + Z :=
  getInt prefs PREF_AI_SCREENING_DELAY 3.

(** A map pushed by [getBlockedCallHistory]; [blocked_at] is passed on
    with [toDouble()], exact for every timestamp below 2^53. *)
Record history_item := {
  item_phone_number : string;
  item_blocked_at : Z;
  item_reason : option string
}.

(** The loop of [getBlockedCallHistory]; the first exception rejects. *)
Fixpoint read_history (jsonArray : list jval) : exn + list history_item :=
  match jsonArray with
  | [] => inr []
  | v :: rest =>
      match JsonObject.getJSONObject v with
      | inl e => inl e
      | inr obj =>
      match JsonObject.getString obj "phone_number" with
      | inl e => inl e
      | inr phone =>
      match JsonObject.getLong obj "blocked_at" with
      | inl e => inl e
      | inr at_ =>
      match (if Json.has obj "reason"
             then match JsonObject.getString obj "reason" with
                  | inl e => inl e
                  | inr r => inr (Some r)
                  end
             else inr None) with
      | inl e => inl e
      | inr reason =>
      match read_history rest with
      | inl e => inl e
      | inr items =>
          inr ({| item_phone_number := phone; item_blocked_at := at_;
                  item_reason := reason |} :: items)
      end end end end end
  end.

Definition getBlockedCallHistory (prefs : shared_prefs) : exn + list history_item :=
  match Prefs.getString prefs PREF_BLOCKED_CALL_HISTORY (TArr []) with
  | inl e => inl e
  | inr json =>
      match JSONArray json with
      | inl e => inl e
      | inr jsonArray => read_history jsonArray
      end
  end.

Definition clearBlockedCallHistory (prefs : shared_prefs) : shared_prefs * bool :=
  (<[PREF_BLOCKED_CALL_HISTORY := PStr (TArr [])]> prefs, true).

Record pending_item := {
  pending_phone_number : string;
  pending_timestamp : Z;
  pending_status : string
}.

(** The loop of [getPendingScreenings]. *)
Fixpoint read_pending (jsonArray : list jval) : exn + list pending_item :=
  match jsonArray with
  | [] => inr []
  | v :: rest =>
      match JsonObject.getJSONObject v with
      | inl e => inl e
      | inr obj =>
      match JsonObject.getString obj "phone_number" with
      | inl e => inl e
      | inr phone =>
      match JsonObject.getLong obj "timestamp" with
      | inl e => inl e
      | inr ts =>
      match JsonObject.getString obj "status" with
      | inl e => inl e
      | inr status =>
      match read_pending rest with
      | inl e => inl e
      | inr items =>
          inr ({| pending_phone_number := phone; pending_timestamp := ts;
                  pending_status := status |} :: items)
      end end end end end
  end.

Definition getPendingScreenings (prefs : shared_prefs) : exn + list pending_item :=
  match Prefs.getString prefs PREF_PENDING_SCREENINGS (TArr []) with
  | inl e => inl e
  | inr json =>
      match JSONArray json with
      | inl e => inl e
      | inr jsonArray => read_pending jsonArray
      end
  end.

Definition clearPendingScreenings (prefs : shared_prefs) : shared_prefs * bool :=
  (<[PREF_PENDING_SCREENINGS := PStr (TArr [])]> prefs, true).

End CurrentBridge.

(* ------------------------------------------------------------------ *)
(** * Current generation: the rest of the screening service            *)
(*    (CallBlockerService.kt, first class)                             *)
(* ------------------------------------------------------------------ *)

Module CurrentService.

Import Current.

(** The [JSONObject] built by [addToPendingScreenings]. *)
Definition pending_fields (phoneNumber : string) (timestamp : Z) (status : string) : JsonObject.fields :=
  [("phone_number", JStr phoneNumber); ("timestamp", JNum timestamp); ("status", JStr status)].

(** [addToPendingScreenings]: [screenings.put(entry)] appends; on an
    exception the store is left as it was. *)
Definition addToPendingScreenings (prefs : shared_prefs) (phoneNumber status : string) (now : Z) : shared_prefs :=
  match Prefs.getString prefs PREF_PENDING_SCREENINGS (TArr []) with
  | inl _ => prefs
  | inr json =>
      match JSONArray json with
      | inl _ => prefs
      | inr screenings =>
          let screenings' := (screenings ++ [JObj (pending_fields phoneNumber now status)])%list in
          <[PREF_PENDING_SCREENINGS := PStr (toString screenings')]> prefs
      end
  end.

(** The loop of [updatePendingScreening]: the first object whose
    [phone_number] equals [phoneNumber] gets the new status, then
    [break]. *)
Fixpoint update_first (screenings : list jval) (phoneNumber status : string) : exn + list jval :=
  match screenings with
  | [] => inr []
  | v :: rest =>
      match JsonObject.getJSONObject v with
      | inl e => inl e
      | inr obj =>
          match JsonObject.getString obj "phone_number" with
          | inl e => inl e
          | inr ph =>
              if String.eqb ph phoneNumber
              then inr (JObj (JsonObject.put obj "status" (JStr status)) :: rest)
              else match update_first rest phoneNumber status with
                   | inl e => inl e
                   | inr rest' => inr (v :: rest')
                   end
          end
      end
  end.

Definition updatePendingScreening (prefs : shared_prefs) (phoneNumber status : string) : shared_prefs :=
  match Prefs.getString prefs PREF_PENDING_SCREENINGS (TArr []) with
  | inl _ => prefs
  | inr json =>
      match JSONArray json with
      | inl _ => prefs
      | inr screenings =>
          match update_first screenings phoneNumber status with
          | inl _ => prefs
          | inr screenings' => <[PREF_PENDING_SCREENINGS := PStr (toString screenings')]> prefs
          end
      end
  end.

(** The flags of a [CallResponse] ([Builder] defaults are all false). *)
Record call_response := {
  disallowCall : bool;
  rejectCall : bool;
  silenceCall : bool;
  skipCallLog : bool;
  skipNotification : bool
}.

Definition default_response : call_response :=
  {| disallowCall := false; rejectCall := false; silenceCall := false;
     skipCallLog := false; skipNotification := false |}.

Definition block_response : call_response :=
  {| disallowCall := true; rejectCall := true; silenceCall := false;
     skipCallLog := false; skipNotification := false |}.

Definition ai_response : call_response :=
  {| disallowCall := false; rejectCall := false; silenceCall := true;
     skipCallLog := false; skipNotification := false |}.

Definition REASON_SPAM := "Numéro spam connu".
Definition REASON_UNKNOWN := "Numéro inconnu".

(** [onScreenCall]: [isInContacts] is the answer of the contacts query
    ([isNumberInContacts], false on any exception). The result is the
    store after the call, and the response passed to [respondToCall] or
    the exception that escapes before it. Notifications, logging and the
    delayed [performAIScreeningWithAudio] are not part of the model. *)
Definition onScreenCall (prefs : shared_prefs) (phoneNumber : string) (isInContacts : bool) (now : Z)
  : shared_prefs * (exn + call_response) :=
  match getBoolean prefs PREF_AUTO_BLOCK_ENABLED true with
  | inl e => (prefs, inl e)
  | inr autoBlockEnabled =>
  match getBoolean prefs PREF_BLOCK_UNKNOWN false with
  | inl e => (prefs, inl e)
  | inr blockUnknown =>
  match getBoolean prefs PREF_AI_SCREENING_ENABLED false with
  | inl e => (prefs, inl e)
  | inr aiScreeningEnabled =>
      let isBlocked := isNumberBlocked prefs phoneNumber in
      if autoBlockEnabled && isBlocked then
        (addToBlockedHistory prefs phoneNumber REASON_SPAM now, inr block_response)
      else if blockUnknown && negb isInContacts then
        (addToBlockedHistory prefs phoneNumber REASON_UNKNOWN now, inr block_response)
      else if aiScreeningEnabled && negb isInContacts && negb isBlocked then
        let prefs' := addToPendingScreenings prefs phoneNumber "answering" now in
        match getInt prefs' PREF_AI_SCREENING_DELAY 1 with
        | inl e => (prefs', inl e)
        | inr _ => (prefs', inr ai_response)
        end
      else (prefs, inr default_response)
  end end end.

End CurrentService.

(* ------------------------------------------------------------------ *)
(** * Legacy generation: [onScreenCall] of part_003                    *)
(* ------------------------------------------------------------------ *)

Module LegacyService.

Import Legacy.
Import CurrentService.

(** [onScreenCall] of the legacy service; the exceptions of
    [shouldBlockNumber] and of the [getString] of [saveBlockedCall]
    escape before [respondToCall]. *)
Definition onScreenCall (prefs : shared_prefs) (phoneNumber : string) (now : Z)
  : shared_prefs * (exn + call_response) :=
  match getBoolean prefs AUTO_BLOCK_KEY true with
  | inl e => (prefs, inl e)
  | inr false => (prefs, inr default_response)
  | inr true =>
      match shouldBlockNumber phoneNumber prefs with
      | inl e => (prefs, inl e)
      | inr true =>
          match saveBlockedCall prefs phoneNumber now with
          | inl e => (prefs, inl e)
          | inr prefs' => (prefs', inr block_response)
          end
      | inr false => (prefs, inr default_response)
      end
  end.

End LegacyService.

(* ------------------------------------------------------------------ *)
(** * Current generation: role requests and [onActivityResult]         *)
(* ------------------------------------------------------------------ *)

Module RoleRequest.

Definition REQUEST_CODE_CALL_SCREENING : Z := 1001.
Definition REQUEST_CODE_DIALER : Z := 1002.
Definition RESULT_OK : Z := -1.

(** What [requestCallScreeningRole] / [requestDialerRole] find on the
    device; the [RoleManager] calls are taken not to throw. *)
Record role_env := {
  sdk_at_least_Q : bool;
  role_manager_present : bool;
  role_available : bool;
  role_held : bool
}.

(** A JS promise is named by a number; [roleRequestPromise] holds at
    most one of them. *)
Abbreviation promise_id := nat.
Abbreviation module_state := (option promise_id).

Inductive event :=
  | RequestCallScreeningRole (p : promise_id) (env : role_env)
  | RequestDialerRole (p : promise_id) (env : role_env)
  | ActivityResult (requestCode resultCode : Z).

(** The body shared by the two request methods. *)
Definition request_role (st : module_state) (p : promise_id) (env : role_env)
  : module_state * list (promise_id * bool) :=
  if sdk_at_least_Q env then
    if role_manager_present env && role_available env then
      if role_held env then (st, [(p, true)])
      else (Some p, [])
    else (st, [(p, false)])
  else (st, [(p, false)]).

Definition onActivityResult (st : module_state) (requestCode resultCode : Z)
  : module_state * list (promise_id * bool) :=
  if Z.eqb requestCode REQUEST_CODE_CALL_SCREENING || Z.eqb requestCode REQUEST_CODE_DIALER then
    (None, match st with
           | Some p => [(p, Z.eqb resultCode RESULT_OK)]
           | None => []
           end)
  else (st, []).

Definition step (st : module_state) (ev : event) : module_state * list (promise_id * bool) :=
  match ev with
  | RequestCallScreeningRole p env => request_role st p env
  | RequestDialerRole p env => request_role st p env
  | ActivityResult rq rc => onActivityResult st rq rc
  end.

(** The state after a sequence of events, and every [resolve] made. *)
Fixpoint run (st : module_state) (evs : list event) : module_state * list (promise_id * bool) :=
  match evs with
  | [] => (st, [])
  | ev :: rest =>
      let (st1, out1) := step st ev in
      let (st2, out2) := run st1 rest in
      (st2, (out1 ++ out2)%list)
  end.

Definition requested (ev : event) : option promise_id :=
  match ev with
  | RequestCallScreeningRole p _ | RequestDialerRole p _ => Some p
  | ActivityResult _ _ => None
  end.

End RoleRequest.

(* ------------------------------------------------------------------ *)
(** * Lemmas on the string operations                                  *)
(* ------------------------------------------------------------------ *)

Lemma substring_0_length (s : string) :
  String.substring 0 (String.length s) s = s.
Proof. induction s as [|c s IH]; simpl; [done | by rewrite IH]. Qed.

Lemma substring_len_0 (n : nat) (s : string) :
  String.substring n 0 s = EmptyString.
Proof.
  revert s; induction n as [|n IH]; intros [|c s]; simpl; auto.
Qed.

Lemma endsWith_refl (s : string) : endsWith s s = true.
Proof.
  unfold endsWith. rewrite Nat.leb_refl, Nat.sub_diag, substring_0_length.
  simpl. apply String.eqb_refl.
Qed.

Lemma endsWith_empty (s : string) : endsWith s EmptyString = true.
Proof.
  unfold endsWith. simpl. rewrite substring_len_0. reflexivity.
Qed.

Lemma takeLast_empty (n : nat) : takeLast n EmptyString = EmptyString.
Proof. unfold takeLast. simpl. rewrite Nat.min_0_r. reflexivity. Qed.

Lemma scan_blocked_In (normalizedNumber : string) (blockedNumbers : list jval) (v : jval) :
  In v blockedNumbers ->
  Current.number_matches normalizedNumber
    (Current.normalizePhoneNumber (Json.getString v)) = true ->
  Current.scan_blocked normalizedNumber blockedNumbers = true.
Proof.
  induction blockedNumbers as [|w rest IH]; simpl; [tauto|].
  intros [-> | Hin] Hm.
  - by rewrite Hm.
  - case_match; [done | auto].
Qed.

Lemma isNumberBlocked_scan (prefs : shared_prefs) (blockedNumbers : list jval) (phoneNumber : string) :
  prefs !! Current.PREF_BLOCKED_NUMBERS = Some (PStr (TArr blockedNumbers)) ->
  Current.isNumberBlocked prefs phoneNumber
  = Current.scan_blocked (Current.normalizePhoneNumber phoneNumber) blockedNumbers.
Proof.
  intros H. unfold Current.isNumberBlocked, Prefs.getString. by rewrite H.
Qed.

Lemma length_trim_front (history : list jval) : (length (Legacy.trim_front history) <= 100)%nat.
Proof.
  induction history as [|x rest IH]; simpl; [lia|].
  destruct (100 <? S (length rest))%nat eqn:E; [exact IH|].
  apply Nat.ltb_ge in E. simpl. lia.
Qed.

Lemma take_min_length {A} (n : nat) (l : list A) :
  take (Nat.min (length l) n) l = take n l.
Proof.
  destruct (Nat.le_ge_cases (length l) n) as [H|H].
  - rewrite Nat.min_l by exact H. rewrite !take_ge by lia. reflexivity.
  - rewrite Nat.min_r by exact H. reflexivity.
Qed.

Lemma current_getSettings_set_auto (prefs : shared_prefs) (b : bool) :
  Current.getSettings (fst (Current.setAutoBlockEnabled b prefs))
  = match getBoolean prefs Current.PREF_BLOCK_UNKNOWN false with
    | inl e => inl e
    | inr bu =>
    match getBoolean prefs Current.PREF_AI_SCREENING_ENABLED false with
    | inl e => inl e
    | inr c =>
    match getInt prefs Current.PREF_AI_SCREENING_DELAY 3 with
    | inl e => inl e
    | inr d => inr {| Current.auto_block_spam := b; Current.block_unknown_numbers := bu;
                      Current.ai_screening_enabled := c; Current.ai_screening_delay := d |}
    end end end.
Proof.
  unfold Current.getSettings, Current.setAutoBlockEnabled, getBoolean, getInt; simpl.
  rewrite lookup_insert_eq.
  rewrite !lookup_insert_ne by discriminate.
  reflexivity.
Qed.

Lemma ai_getSettings_set_auto (prefs : shared_prefs) (b : bool) :
  AIGen.getSettings (fst (AIGen.setAutoBlockEnabled b prefs))
  = match getBoolean prefs AIGen.BLOCK_UNKNOWN_KEY false with
    | inl e => inl e
    | inr bu =>
    match getBoolean prefs AIGen.AI_SCREENING_KEY false with
    | inl e => inl e
    | inr c =>
    match getInt prefs AIGen.AI_SCREENING_DELAY_KEY 3 with
    | inl e => inl e
    | inr d => inr {| Current.auto_block_spam := b; Current.block_unknown_numbers := bu;
                      Current.ai_screening_enabled := c; Current.ai_screening_delay := d |}
    end end end.
Proof.
  unfold AIGen.getSettings, AIGen.setAutoBlockEnabled, getBoolean, getInt; simpl.
  rewrite lookup_insert_eq.
  rewrite !lookup_insert_ne by discriminate.
  reflexivity.
Qed.

(* ------------------------------------------------------------------ *)
(** * Claims                                                           *)
(* ------------------------------------------------------------------ *)

(** C1: when the incoming number and an entry of the stored blocked
    list have the same last 9 digits (non-digits stripped), the native
    matcher [isNumberBlocked] of the screening service returns [true]. *)
Theorem isNumberBlocked_same_last9_digits
    (prefs : shared_prefs) (blockedNumbers : list jval) (v : jval) (phoneNumber : string) :
  prefs !! Current.PREF_BLOCKED_NUMBERS = Some (PStr (TArr blockedNumbers)) ->
  In v blockedNumbers ->
  takeLast 9 (replace_non_digits phoneNumber)
  = takeLast 9 (replace_non_digits (Json.getString v)) ->
  Current.isNumberBlocked prefs phoneNumber = true.
Proof.
  intros Hs Hin Heq.
  rewrite (isNumberBlocked_scan _ _ _ Hs).
  apply (scan_blocked_In _ _ v Hin).
  unfold Current.number_matches, Current.normalizePhoneNumber.
  rewrite Heq, endsWith_refl. reflexivity.
Qed.

Lemma isNumberBlocked_same_last9_digits_witness :
  <[Current.PREF_BLOCKED_NUMBERS := PStr (TArr [JStr "0999"; JStr "06 12 34 56 78"])]>
    (∅ : shared_prefs) !! Current.PREF_BLOCKED_NUMBERS
    = Some (PStr (TArr [JStr "0999"; JStr "06 12 34 56 78"]))
  /\ In (JStr "06 12 34 56 78") [JStr "0999"; JStr "06 12 34 56 78"]
  /\ takeLast 9 (replace_non_digits "+33 6 12 34 56 78")
     = takeLast 9 (replace_non_digits (Json.getString (JStr "06 12 34 56 78")))
  /\ Current.isNumberBlocked
       (<[Current.PREF_BLOCKED_NUMBERS := PStr (TArr [JStr "0999"; JStr "06 12 34 56 78"])]> ∅)
       "+33 6 12 34 56 78" = true.
Proof.
  split; [reflexivity|]. split; [simpl; auto|]. split; [reflexivity|].
  apply (isNumberBlocked_same_last9_digits _ [JStr "0999"; JStr "06 12 34 56 78"]
           (JStr "06 12 34 56 78")); [reflexivity | simpl; auto | reflexivity].
Defined.

(** C2: each time the screening service records a blocked call the
    stored history holds at most 100 entries. Current service
    ([addToBlockedHistory]): the new entry followed by at most 99 prior
    ones. First-generation service ([saveBlockedCall]): the prior
    entries and the new one, trimmed from the front to 100. *)
Theorem blocked_history_capped :
  (forall (prefs : shared_prefs) (history : list jval) (phoneNumber reason : string) (now : Z),
     Prefs.getString prefs Current.PREF_BLOCKED_CALL_HISTORY (TArr []) = inr (TArr history) ->
     exists newHistory,
       Current.addToBlockedHistory prefs phoneNumber reason now
         !! Current.PREF_BLOCKED_CALL_HISTORY = Some (PStr (TArr newHistory))
       /\ newHistory = Current.history_entry phoneNumber now reason :: take 99 history
       /\ (length newHistory <= 100)%nat)
  /\
  (forall (prefs : shared_prefs) (history : list jval) (phoneNumber : string) (now : Z),
     Prefs.getString prefs "blocked_history" (TArr []) = inr (TArr history) ->
     exists prefs' newHistory,
       Legacy.saveBlockedCall prefs phoneNumber now = inr prefs'
       /\ prefs' !! "blocked_history" = Some (PStr (TArr newHistory))
       /\ newHistory = Legacy.trim_front (history ++ [Legacy.history_entry phoneNumber now])
       /\ (length newHistory <= 100)%nat).
Proof.
  split.
  - intros prefs history phoneNumber reason now H.
    unfold Current.addToBlockedHistory. rewrite H. simpl.
    eexists. split; [apply lookup_insert_eq|]. split.
    + f_equal. apply take_min_length.
    + simpl. rewrite length_take. lia.
  - intros prefs history phoneNumber now H.
    unfold Legacy.saveBlockedCall. rewrite H. simpl.
    do 2 eexists. split; [reflexivity|]. split; [apply lookup_insert_eq|].
    split; [reflexivity|]. apply length_trim_front.
Qed.

Lemma blocked_history_capped_witness :
  (exists newHistory,
    Current.addToBlockedHistory
      {[ Current.PREF_BLOCKED_CALL_HISTORY :=
           PStr (TArr (map (fun i => Current.history_entry "0612345678" (Z.of_nat i) "spam")
                         (seq 0 100))) ]}
      "0699999999" "spam" 1700000000000%Z
      !! Current.PREF_BLOCKED_CALL_HISTORY = Some (PStr (TArr newHistory))
    /\ newHistory = Current.history_entry "0699999999" 1700000000000%Z "spam"
                      :: take 99 (map (fun i => Current.history_entry "0612345678" (Z.of_nat i) "spam")
                                    (seq 0 100))
    /\ (length newHistory <= 100)%nat)
  /\
  (exists prefs' newHistory,
    Legacy.saveBlockedCall
      {[ "blocked_history" :=
           PStr (TArr (map (fun i => Legacy.history_entry "0612345678" (Z.of_nat i)) (seq 0 100))) ]}
      "0699999999" 1700000000000%Z = inr prefs'
    /\ prefs' !! "blocked_history" = Some (PStr (TArr newHistory))
    /\ newHistory = Legacy.trim_front
                      (map (fun i => Legacy.history_entry "0612345678" (Z.of_nat i)) (seq 0 100)
                       ++ [Legacy.history_entry "0699999999" 1700000000000%Z])
    /\ (length newHistory <= 100)%nat).
Proof.
  split.
  - apply (proj1 blocked_history_capped). reflexivity.
  - apply (proj2 blocked_history_capped). reflexivity.
Defined.

(** C6: after [setAutoBlockEnabled(b)], [getSettings] resolves with
    [auto_block_spam = b], in the current module (key
    "auto_block_enabled") and in the AI-generation module (key
    "auto_block_spam"); when [getSettings] resolved before the toggle,
    it resolves after it with only that field changed. *)
Theorem setAutoBlockEnabled_getSettings :
  (forall (prefs : shared_prefs) (b : bool) (s : Current.settings),
     Current.getSettings (fst (Current.setAutoBlockEnabled b prefs)) = inr s ->
     Current.auto_block_spam s = b)
  /\ (forall (prefs : shared_prefs) (b : bool) (s : Current.settings),
     Current.getSettings prefs = inr s ->
     Current.getSettings (fst (Current.setAutoBlockEnabled b prefs))
     = inr {| Current.auto_block_spam := b;
              Current.block_unknown_numbers := Current.block_unknown_numbers s;
              Current.ai_screening_enabled := Current.ai_screening_enabled s;
              Current.ai_screening_delay := Current.ai_screening_delay s |})
  /\ (forall (prefs : shared_prefs) (b : bool) (s : Current.settings),
     AIGen.getSettings (fst (AIGen.setAutoBlockEnabled b prefs)) = inr s ->
     Current.auto_block_spam s = b)
  /\ (forall (prefs : shared_prefs) (b : bool) (s : Current.settings),
     AIGen.getSettings prefs = inr s ->
     AIGen.getSettings (fst (AIGen.setAutoBlockEnabled b prefs))
     = inr {| Current.auto_block_spam := b;
              Current.block_unknown_numbers := Current.block_unknown_numbers s;
              Current.ai_screening_enabled := Current.ai_screening_enabled s;
              Current.ai_screening_delay := Current.ai_screening_delay s |}).
Proof.
  split; [|split; [|split]]; intros prefs b s H.
  - rewrite current_getSettings_set_auto in H.
    repeat case_match; try discriminate. injection H as <-. reflexivity.
  - rewrite current_getSettings_set_auto.
    unfold Current.getSettings in H.
    repeat case_match; try discriminate; injection H as <-; reflexivity.
  - rewrite ai_getSettings_set_auto in H.
    repeat case_match; try discriminate. injection H as <-. reflexivity.
  - rewrite ai_getSettings_set_auto.
    unfold AIGen.getSettings in H.
    repeat case_match; try discriminate; injection H as <-; reflexivity.
Qed.

Lemma setAutoBlockEnabled_getSettings_witness :
  Current.getSettings (fst (Current.setAutoBlockEnabled false ∅))
    = inr {| Current.auto_block_spam := false; Current.block_unknown_numbers := false;
             Current.ai_screening_enabled := false; Current.ai_screening_delay := 3 |}
  /\ Current.auto_block_spam
       {| Current.auto_block_spam := false; Current.block_unknown_numbers := false;
          Current.ai_screening_enabled := false; Current.ai_screening_delay := 3 |} = false.
Proof.
  split; [reflexivity|].
  apply (proj1 setAutoBlockEnabled_getSettings ∅ false). reflexivity.
Defined.

(** C7 (counterexample): the first-generation service's
    [saveBlockedCall] records an entry with only "phone_number" and
    "blocked_at": it has no reason field. *)
Lemma legacy_history_entry_without_reason :
  Legacy.saveBlockedCall ∅ "0612345678" 0%Z
    = inr (<["blocked_history" := PStr (TArr [Legacy.history_entry "0612345678" 0%Z])]> ∅)
  /\ Legacy.history_entry "0612345678" 0%Z
     = JObj [("phone_number", JStr "0612345678"); ("blocked_at", JNum 0%Z)]
  /\ Json.has [("phone_number", JStr "0612345678"); ("blocked_at", JNum 0%Z)] "reason" = false.
Proof. split; [reflexivity|]. split; reflexivity. Qed.

(** C7 (amended): the current screening service's
    [addToBlockedHistory] stores as first history entry an object with
    the phone number, the [blocked_at] timestamp and the reason; the
    first-generation [saveBlockedCall] appends an object with only the
    phone number and the [blocked_at] timestamp. *)
Theorem blocked_history_entry_fields :
  (forall (prefs : shared_prefs) (history : list jval) (phoneNumber reason : string) (now : Z),
     Prefs.getString prefs Current.PREF_BLOCKED_CALL_HISTORY (TArr []) = inr (TArr history) ->
     exists fields rest,
       Current.addToBlockedHistory prefs phoneNumber reason now
         !! Current.PREF_BLOCKED_CALL_HISTORY = Some (PStr (TArr (JObj fields :: rest)))
       /\ In ("phone_number", JStr phoneNumber) fields
       /\ In ("blocked_at", JNum now) fields
       /\ In ("reason", JStr reason) fields)
  /\
  (forall (prefs : shared_prefs) (history : list jval) (phoneNumber : string) (now : Z),
     Prefs.getString prefs "blocked_history" (TArr []) = inr (TArr history) ->
     Legacy.history_entry phoneNumber now
       = JObj [("phone_number", JStr phoneNumber); ("blocked_at", JNum now)]
     /\ Legacy.saveBlockedCall prefs phoneNumber now
        = inr (<["blocked_history" := PStr (TArr (Legacy.trim_front
                   (history ++ [Legacy.history_entry phoneNumber now])))]> prefs)).
Proof.
  split.
  - intros prefs history phoneNumber reason now H.
    unfold Current.addToBlockedHistory. rewrite H. simpl.
    do 2 eexists. split; [apply lookup_insert_eq|].
    simpl. tauto.
  - intros prefs history phoneNumber now H. split; [reflexivity|].
    unfold Legacy.saveBlockedCall. rewrite H. reflexivity.
Qed.

Lemma blocked_history_entry_fields_witness :
  exists fields rest,
    Current.addToBlockedHistory ∅ "0612345678" "spam" 5%Z
      !! Current.PREF_BLOCKED_CALL_HISTORY = Some (PStr (TArr (JObj fields :: rest)))
    /\ In ("phone_number", JStr "0612345678") fields
    /\ In ("blocked_at", JNum 5%Z) fields
    /\ In ("reason", JStr "spam") fields.
Proof.
  apply (proj1 blocked_history_entry_fields ∅ [] "0612345678" "spam" 5%Z).
  reflexivity.
Defined.

(** C8: when an entry of the stored blocked list has no digit
    character, it normalizes to the empty string, which every
    normalized number ends with: [isNumberBlocked] returns [true] for
    every incoming number. *)
Theorem isNumberBlocked_digitless_entry
    (prefs : shared_prefs) (blockedNumbers : list jval) (v : jval) (phoneNumber : string) :
  prefs !! Current.PREF_BLOCKED_NUMBERS = Some (PStr (TArr blockedNumbers)) ->
  In v blockedNumbers ->
  replace_non_digits (Json.getString v) = EmptyString ->
  Current.isNumberBlocked prefs phoneNumber = true.
Proof.
  intros Hs Hin Hd.
  rewrite (isNumberBlocked_scan _ _ _ Hs).
  apply (scan_blocked_In _ _ v Hin).
  unfold Current.number_matches. unfold Current.normalizePhoneNumber at 2.
  rewrite Hd, takeLast_empty, endsWith_empty. reflexivity.
Qed.

Lemma isNumberBlocked_digitless_entry_witness :
  <[Current.PREF_BLOCKED_NUMBERS := PStr (TArr [JStr "inconnu"])]>
    (∅ : shared_prefs) !! Current.PREF_BLOCKED_NUMBERS = Some (PStr (TArr [JStr "inconnu"]))
  /\ In (JStr "inconnu") [JStr "inconnu"]
  /\ replace_non_digits (Json.getString (JStr "inconnu")) = EmptyString
  /\ Current.isNumberBlocked
       (<[Current.PREF_BLOCKED_NUMBERS := PStr (TArr [JStr "inconnu"])]> ∅)
       "0140000000" = true.
Proof.
  split; [reflexivity|]. split; [simpl; auto|]. split; [reflexivity|].
  apply (isNumberBlocked_digitless_entry _ [JStr "inconnu"] (JStr "inconnu"));
    [reflexivity | simpl; auto | reflexivity].
Defined.

(** C9 (counterexample): with a corrupted blocked-numbers value and
    "block_unknown_numbers" on, the first-generation [shouldBlockNumber]
    returns [true]. *)
Lemma shouldBlockNumber_corrupt_store_blocks :
  Legacy.shouldBlockNumber "0612345678"
    (<[Legacy.BLOCKED_NUMBERS_KEY := PStr (TRaw "[0612")]>
       (<[Legacy.BLOCK_UNKNOWN_KEY := PBool true]> ∅)) = inr true.
Proof. reflexivity. Qed.

(** C9 (amended): when Android's [JSONArray] constructor rejects the
    stored blocked-numbers text (a [TRaw]; text its lenient tokenizer
    accepts is a [TArr] and is matched entry by entry), the current
    [isNumberBlocked] returns [false] without
    throwing, and the first-generation [shouldBlockNumber] catches the
    parse error, matches no blocked entry and returns the
    "block_unknown_numbers" setting (when it holds a boolean or is
    absent, default [false]). *)
Theorem blocked_check_corrupt_store :
  (forall (prefs : shared_prefs) (s phoneNumber : string),
     prefs !! Current.PREF_BLOCKED_NUMBERS = Some (PStr (TRaw s)) ->
     Current.isNumberBlocked prefs phoneNumber = false)
  /\
  (forall (prefs : shared_prefs) (s phoneNumber : string) (blockUnknown : bool),
     prefs !! Legacy.BLOCKED_NUMBERS_KEY = Some (PStr (TRaw s)) ->
     getBoolean prefs Legacy.BLOCK_UNKNOWN_KEY false = inr blockUnknown ->
     Legacy.shouldBlockNumber phoneNumber prefs = inr blockUnknown).
Proof.
  split.
  - intros prefs s phoneNumber H.
    unfold Current.isNumberBlocked, Prefs.getString. rewrite H. reflexivity.
  - intros prefs s phoneNumber blockUnknown H Hb.
    unfold Legacy.shouldBlockNumber, Prefs.getString. rewrite H. simpl.
    rewrite Hb. destruct blockUnknown; reflexivity.
Qed.

Lemma blocked_check_corrupt_store_witness :
  Current.isNumberBlocked (<[Current.PREF_BLOCKED_NUMBERS := PStr (TRaw "[0612")]> ∅)
    "0612345678" = false
  /\ Legacy.shouldBlockNumber "0612345678"
       (<[Legacy.BLOCKED_NUMBERS_KEY := PStr (TRaw "[0612")]> ∅) = inr false.
Proof.
  split.
  - apply (proj1 blocked_check_corrupt_store _ "[0612"). reflexivity.
  - apply (proj2 blocked_check_corrupt_store _ "[0612"); reflexivity.
Defined.

(** C10 (counterexample): the first-generation module stores a JS
    [null] element as JSON [null] instead of dropping it. *)
Lemma legacy_updateBlockedNumbers_keeps_null :
  fst (Legacy.updateBlockedNumbers [None] ∅) !! Legacy.BLOCKED_NUMBERS_KEY
    = Some (PStr (TArr [JNull]))
  /\ [JNull] <> map JStr (omap (fun o => o) [None]).
Proof. split; [reflexivity | discriminate]. Qed.

(** C10 (amended): [updateBlockedNumbers] replaces the stored
    "blocked_numbers" array whatever it held and changes no other key.
    The current module stores exactly the non-null elements (read back
    by [getString] as the argument with its nulls dropped); the
    first-generation and AI-generation modules store every element, a
    JS [null] as JSON [null]. *)
Theorem updateBlockedNumbers_replaces :
  (forall (numbers : Current.readable_array) (prefs : shared_prefs),
     exists stored,
       fst (Current.updateBlockedNumbers numbers prefs) !! Current.PREF_BLOCKED_NUMBERS
         = Some (PStr (TArr stored))
       /\ stored = map JStr (omap (fun o => o) numbers)
       /\ map Json.getString stored = omap (fun o => o) numbers
       /\ (forall k, k <> Current.PREF_BLOCKED_NUMBERS ->
             fst (Current.updateBlockedNumbers numbers prefs) !! k = prefs !! k))
  /\
  (forall (numbers : Current.readable_array) (prefs : shared_prefs),
     exists stored,
       fst (Legacy.updateBlockedNumbers numbers prefs) !! Legacy.BLOCKED_NUMBERS_KEY
         = Some (PStr (TArr stored))
       /\ stored = map (fun o => match o with Some s => JStr s | None => JNull end) numbers
       /\ (forall k, k <> Legacy.BLOCKED_NUMBERS_KEY ->
             fst (Legacy.updateBlockedNumbers numbers prefs) !! k = prefs !! k))
  /\
  (forall (numbers : Current.readable_array) (prefs : shared_prefs),
     exists stored,
       fst (AIGen.updateBlockedNumbers numbers prefs) !! AIGen.BLOCKED_NUMBERS_KEY
         = Some (PStr (TArr stored))
       /\ stored = map (fun o => match o with Some s => JStr s | None => JNull end) numbers
       /\ (forall k, k <> AIGen.BLOCKED_NUMBERS_KEY ->
             fst (AIGen.updateBlockedNumbers numbers prefs) !! k = prefs !! k)).
Proof.
  split; [|split]; intros numbers prefs; eexists; simpl.
  - split; [apply lookup_insert_eq|]. split; [reflexivity|]. split.
    + rewrite map_map. simpl. apply map_id.
    + intros k Hk. by apply lookup_insert_ne.
  - split; [apply lookup_insert_eq|]. split; [reflexivity|].
    intros k Hk. by apply lookup_insert_ne.
  - split; [apply lookup_insert_eq|]. split; [reflexivity|].
    intros k Hk. by apply lookup_insert_ne.
Qed.

Lemma updateBlockedNumbers_replaces_witness :
  fst (Current.updateBlockedNumbers [Some "0612345678"; None]
         (<[Current.PREF_AUTO_BLOCK_ENABLED := PBool false]> ∅))
    !! Current.PREF_AUTO_BLOCK_ENABLED = Some (PBool false).
Proof.
  destruct (proj1 updateBlockedNumbers_replaces [Some "0612345678"; None]
              (<[Current.PREF_AUTO_BLOCK_ENABLED := PBool false]> ∅))
    as (stored & _ & _ & _ & Hother).
  rewrite (Hother Current.PREF_AUTO_BLOCK_ENABLED); [reflexivity | discriminate].
Defined.

(** C3 (counterexample): on Android, when the native call throws,
    [getAIScreeningDelay] resolves with 3, which is none of [false],
    [null] and the empty array. *)
Lemma getAIScreeningDelay_error_resolves_3 :
  JsBridge.result (JsBridge.CallBlocker "android" JsBridge.getAIScreeningDelay JsBridge.Throws)
    = JsBridge.Resolved (JsBridge.VNum 3)
  /\ JsBridge.VNum 3 <> JsBridge.VBool false
  /\ JsBridge.VNum 3 <> JsBridge.VNull
  /\ JsBridge.VNum 3 <> JsBridge.VArr [].
Proof. split; [reflexivity|]. repeat split; discriminate. Qed.

(** C3 (amended): no function of [CallBlocker] rejects; when the native
    call throws or rejects it resolves with its fallback, which is
    [false], [null] (getSettings), the empty array (the two list
    getters), or 3 for [getAIScreeningDelay]. *)
Theorem CallBlocker_error_fallback (os : string) (o : JsBridge.op) :
  (forall native, JsBridge.result (JsBridge.CallBlocker os o native) <> JsBridge.Rejected)
  /\ JsBridge.result (JsBridge.CallBlocker os o JsBridge.Throws)
     = JsBridge.Resolved (JsBridge.fallback o)
  /\ (JsBridge.fallback o = JsBridge.VBool false
      \/ (o = JsBridge.getSettings /\ JsBridge.fallback o = JsBridge.VNull)
      \/ ((o = JsBridge.getPendingScreenings \/ o = JsBridge.getBlockedCallHistory)
          /\ JsBridge.fallback o = JsBridge.VArr [])
      \/ (o = JsBridge.getAIScreeningDelay /\ JsBridge.fallback o = JsBridge.VNum 3)).
Proof.
  unfold JsBridge.CallBlocker, JsBridge.guarded.
  split; [|split].
  - intros native. destruct (negb _); [discriminate|].
    destruct native; discriminate.
  - destruct (negb _); reflexivity.
  - destruct o; simpl; auto 6.
Qed.

(** C4 (counterexample): off Android, [getAIScreeningDelay] resolves
    with 3 without calling the native module. *)
Lemma getAIScreeningDelay_non_android_3 :
  JsBridge.CallBlocker "ios" JsBridge.getAIScreeningDelay (JsBridge.Resolves (JsBridge.VNum 10))
    = {| JsBridge.native_invoked := false;
         JsBridge.result := JsBridge.Resolved (JsBridge.VNum 3) |}
  /\ JsBridge.VNum 3 <> JsBridge.VBool false
  /\ JsBridge.VNum 3 <> JsBridge.VNull
  /\ JsBridge.VNum 3 <> JsBridge.VArr [].
Proof. split; [reflexivity|]. repeat split; discriminate. Qed.

(** C4 (amended): when [Platform.OS] is not "android", every function
    of [CallBlocker] returns without calling the native module and
    resolves with its fallback ([false], [null] for getSettings, the
    empty array for the list getters, 3 for getAIScreeningDelay), and
    [isSupported] returns [false]. *)
Theorem CallBlocker_non_android (os : string) :
  String.eqb os "android" = false ->
  JsBridge.isSupported os = false
  /\ forall o native,
       JsBridge.CallBlocker os o native
       = {| JsBridge.native_invoked := false;
            JsBridge.result := JsBridge.Resolved (JsBridge.fallback o) |}.
Proof.
  intros Hos. unfold JsBridge.isSupported. split; [exact Hos|].
  intros o native. unfold JsBridge.CallBlocker, JsBridge.guarded.
  rewrite Hos. reflexivity.
Qed.

Lemma CallBlocker_non_android_witness :
  String.eqb "web" "android" = false
  /\ JsBridge.CallBlocker "web" JsBridge.getSettings JsBridge.Throws
     = {| JsBridge.native_invoked := false;
          JsBridge.result := JsBridge.Resolved JsBridge.VNull |}.
Proof.
  split; [reflexivity|].
  apply (proj2 (CallBlocker_non_android "web" eq_refl)).
Defined.

(** C5 (counterexample): the native components of the repository open
    two different SharedPreferences files. *)
Lemma native_components_two_files :
  In Layout.ai_module Layout.all_components
  /\ In Layout.current_service Layout.all_components
  /\ Layout.prefs_file Layout.ai_module <> Layout.prefs_file Layout.current_service.
Proof.
  split; [simpl; auto 10|]. split; [simpl; auto 10|]. discriminate.
Qed.

(** C5 (amended): within each generation of the native layer, every
    component (bridge module, screening service, in-call activity,
    including the Kotlin templates written by the Expo plugin) opens the
    bridge module's SharedPreferences file and uses only keys the bridge
    module also uses: "StopPubbySiPrefs" with history key
    "blocked_history" in the first and AI generations,
    "call_blocker_prefs" with history key "blocked_call_history" in the
    current one; no component uses the other generation's history key. *)
Theorem native_components_share_store (g : Layout.generation) (c : Layout.component) :
  In c (Layout.components g) ->
  Layout.prefs_file c = Layout.prefs_file (Layout.bridge_module g)
  /\ (forall k, In k (Layout.keys c) -> In k (Layout.keys (Layout.bridge_module g)))
  /\ Layout.prefs_file (Layout.bridge_module g)
     = match g with
       | Layout.GenCurrent => "call_blocker_prefs"
       | _ => "StopPubbySiPrefs"
       end
  /\ In (match g with
        | Layout.GenCurrent => "blocked_call_history"
        | _ => "blocked_history"
        end) (Layout.keys (Layout.bridge_module g))
  /\ ~ In (match g with
          | Layout.GenCurrent => "blocked_history"
          | _ => "blocked_call_history"
          end) (Layout.keys c).
Proof.
  intros Hc.
  destruct g; simpl in Hc; repeat destruct Hc as [<- | Hc]; try contradiction.
  all: split; [reflexivity | split; [|split; [reflexivity | split]]].
  all: match goal with
       | |- forall k, _ =>
           intros k Hk; simpl in Hk |- *;
           repeat destruct Hk as [<- | Hk]; try contradiction; auto 10
       | |- ~ _ =>
           simpl; intros Hk; repeat destruct Hk as [Hk | Hk]; try discriminate; contradiction
       | |- _ => simpl; auto 10
       end.
Qed.

Lemma native_components_share_store_witness :
  Layout.prefs_file Layout.plugin_service = Layout.prefs_file Layout.current_module
  /\ ~ In "blocked_history" (Layout.keys Layout.plugin_service).
Proof.
  destruct (native_components_share_store Layout.GenCurrent Layout.plugin_service)
    as (Hf & _ & _ & _ & Hk); [simpl; auto 10 |].
  split; [exact Hf | exact Hk].
Defined.

Lemma CallBlocker_error_fallback_witness :
  JsBridge.result (JsBridge.CallBlocker "android" JsBridge.getBlockedCallHistory JsBridge.Throws)
    = JsBridge.Resolved (JsBridge.VArr []).
Proof.
  apply (proj1 (proj2 (CallBlocker_error_fallback "android" JsBridge.getBlockedCallHistory))).
Defined.

(* ------------------------------------------------------------------ *)
(** * Further properties of the native layer                           *)
(* ------------------------------------------------------------------ *)

(** ** Helper lemmas *)

Lemma scan_blocked_existsb (n : string) (l : list jval) :
  Current.scan_blocked n l
  = existsb (fun v => Current.number_matches n (Current.normalizePhoneNumber (Json.getString v))) l.
Proof.
  induction l as [|v rest IH]; simpl; [reflexivity|].
  case_match; simpl; [reflexivity | exact IH].
Qed.

Lemma length_replace_non_digits (s : string) :
  (String.length (replace_non_digits s) <= String.length s)%nat.
Proof.
  induction s as [|c r IH]; simpl; [lia|].
  destruct (is_digit c); simpl; lia.
Qed.

Lemma digits_replace_non_digits_plus (d : string) :
  replace_non_digits d = d -> replace_non_digits_plus d = d.
Proof.
  induction d as [|c r IH]; simpl; [reflexivity|].
  destruct (is_digit c) eqn:Hc; simpl.
  - intros H. injection H as H. by rewrite IH.
  - intros H. exfalso.
    pose proof (length_replace_non_digits r) as Hl.
    rewrite H in Hl. simpl in Hl. lia.
Qed.

Lemma legacy_normalize_national (d : string) :
  replace_non_digits d = d -> String.length d = 9%nat ->
  Legacy.normalizePhoneNumber (String "0" d) = String.append "+33" d.
Proof.
  intros Hd Hl. unfold Legacy.normalizePhoneNumber. simpl.
  rewrite (digits_replace_non_digits_plus d Hd). simpl. rewrite Hl.
  destruct d; reflexivity.
Qed.

Lemma legacy_normalize_international (d : string) :
  replace_non_digits d = d ->
  Legacy.normalizePhoneNumber (String.append "+33" d) = String.append "+33" d.
Proof.
  intros Hd. unfold Legacy.normalizePhoneNumber.
  change (String.append "+33" d) with (String "+" (String "3" (String "3" d))). simpl.
  rewrite (digits_replace_non_digits_plus d Hd). reflexivity.
Qed.

Lemma legacy_scan_blocked_In (n : string) (l : list jval) (v : jval) :
  In v l -> Legacy.normalizePhoneNumber (Json.getString v) = n ->
  Legacy.scan_blocked n l = true.
Proof.
  induction l as [|w rest IH]; simpl; [tauto|].
  intros [-> | Hin] Hv.
  - rewrite Hv, String.eqb_refl. reflexivity.
  - case_match; [reflexivity | auto].
Qed.

Lemma legacy_shouldBlock_entry (prefs : shared_prefs) (l : list jval) (v : jval) (phone : string) :
  prefs !! Legacy.BLOCKED_NUMBERS_KEY = Some (PStr (TArr l)) -> In v l ->
  Legacy.normalizePhoneNumber (Json.getString v) = Legacy.normalizePhoneNumber phone ->
  Legacy.shouldBlockNumber phone prefs = inr true.
Proof.
  intros Hp Hin Hn. unfold Legacy.shouldBlockNumber, Prefs.getString. rewrite Hp. simpl.
  by rewrite (legacy_scan_blocked_In _ l v Hin Hn).
Qed.

Lemma trim_front_drop (h : list jval) :
  Legacy.trim_front h = drop (length h - 100) h.
Proof.
  induction h as [|x r IH]; simpl; [reflexivity|].
  destruct (100 <? S (length r))%nat eqn:E.
  - apply Nat.ltb_lt in E. rewrite IH.
    replace (length r - 99)%nat with (S (length r - 100)) by lia. reflexivity.
  - apply Nat.ltb_ge in E. replace (length r - 99)%nat with 0%nat by lia. reflexivity.
Qed.

(** ** Matching of the current service *)

(** [X1] After the bridge's [updateBlockedNumbers(numbers)], the
    service's [isNumberBlocked] blocks a number exactly when one of the
    non-null strings passed matches it (after normalization one ends
    with or contains the other); whatever was stored before plays no
    part. *)
Theorem isNumberBlocked_after_updateBlockedNumbers (numbers : Current.readable_array)
    (prefs : shared_prefs) (phone : string) :
  Current.isNumberBlocked (fst (Current.updateBlockedNumbers numbers prefs)) phone
  = existsb (fun s => Current.number_matches (Current.normalizePhoneNumber phone)
                        (Current.normalizePhoneNumber s))
      (omap (fun o => o) numbers).
Proof.
  unfold Current.isNumberBlocked, Current.updateBlockedNumbers, Prefs.getString. simpl.
  rewrite lookup_insert_eq. simpl.
  rewrite scan_blocked_existsb.
  generalize (omap (fun o => o) numbers) as l.
  induction l as [|x l IH]; simpl; [reflexivity|]. by rewrite IH.
Qed.

(** [X2] A caller whose number has no digit (a hidden number arrives as
    the empty string) is reported blocked exactly when the stored
    blocked list is non-empty. *)
Theorem isNumberBlocked_digitless_caller (prefs : shared_prefs) (phone : string) :
  replace_non_digits phone = EmptyString ->
  Current.isNumberBlocked prefs phone
  = match prefs !! Current.PREF_BLOCKED_NUMBERS with
    | Some (PStr (TArr (_ :: _))) => true
    | _ => false
    end.
Proof.
  intros Hp. unfold Current.isNumberBlocked, Prefs.getString.
  assert (Hn : Current.normalizePhoneNumber phone = EmptyString)
    by (unfold Current.normalizePhoneNumber; rewrite Hp; apply takeLast_empty).
  rewrite Hn.
  destruct (prefs !! Current.PREF_BLOCKED_NUMBERS) as [[b|z|[[|v l]|s]]|]; simpl;
    try reflexivity.
  unfold Current.number_matches. rewrite (endsWith_empty (Current.normalizePhoneNumber _)).
  by rewrite orb_true_r.
Qed.

Lemma isNumberBlocked_digitless_caller_witness :
  replace_non_digits EmptyString = EmptyString
  /\ Current.isNumberBlocked {[ Current.PREF_BLOCKED_NUMBERS := PStr (TArr [JStr "0612345678"]) ]}
       EmptyString = true.
Proof.
  split; [reflexivity|].
  rewrite (isNumberBlocked_digitless_caller _ EmptyString eq_refl).
  by rewrite lookup_singleton_eq.
Defined.

(** ** Normalization and matching of the legacy service *)

(** [X3] The legacy [normalizePhoneNumber] maps the national form
    "0" + 9 digits and the international form "+33" + the same 9 digits
    to the same text, "+33" + the 9 digits. *)
Theorem legacy_normalize_national_international (d : string) :
  replace_non_digits d = d -> String.length d = 9%nat ->
  Legacy.normalizePhoneNumber (String "0" d) = String.append "+33" d
  /\ Legacy.normalizePhoneNumber (String.append "+33" d) = String.append "+33" d.
Proof.
  intros Hd Hl. split.
  - exact (legacy_normalize_national d Hd Hl).
  - exact (legacy_normalize_international d Hd).
Qed.

Lemma legacy_normalize_national_international_witness :
  Legacy.normalizePhoneNumber "0612345678" = "+33612345678"
  /\ Legacy.normalizePhoneNumber "+33612345678" = "+33612345678".
Proof.
  apply (legacy_normalize_national_international "612345678"); reflexivity.
Defined.

(** [X4] In the legacy service a number stored in national form blocks
    calls from the same number in international form, and the other way
    round. *)
Theorem legacy_shouldBlock_across_formats (prefs : shared_prefs) (l : list jval) (d : string) :
  replace_non_digits d = d -> String.length d = 9%nat ->
  prefs !! Legacy.BLOCKED_NUMBERS_KEY = Some (PStr (TArr l)) ->
  (In (JStr (String "0" d)) l ->
     Legacy.shouldBlockNumber (String.append "+33" d) prefs = inr true)
  /\ (In (JStr (String.append "+33" d)) l ->
     Legacy.shouldBlockNumber (String "0" d) prefs = inr true).
Proof.
  intros Hd Hl Hp. split; intros Hin; eapply legacy_shouldBlock_entry; eauto; simpl.
  - rewrite (legacy_normalize_national d Hd Hl). by rewrite legacy_normalize_international.
  - rewrite (legacy_normalize_national d Hd Hl). by rewrite legacy_normalize_international.
Qed.

Lemma legacy_shouldBlock_across_formats_witness :
  Legacy.shouldBlockNumber "+33612345678"
    {[ Legacy.BLOCKED_NUMBERS_KEY := PStr (TArr [JStr "0612345678"]) ]} = inr true.
Proof.
  apply (proj1 (legacy_shouldBlock_across_formats
                  {[ Legacy.BLOCKED_NUMBERS_KEY := PStr (TArr [JStr "0612345678"]) ]}
                  [JStr "0612345678"] "612345678" eq_refl eq_refl
                  (lookup_singleton_eq _ _))).
  simpl; auto.
Defined.

(** [X5] The legacy [saveBlockedCall] appends the new entry and keeps
    the 100 most recent entries in order (the oldest are removed first). *)
Theorem legacy_saveBlockedCall_keeps_last_100 (prefs : shared_prefs) (history : list jval)
    (phone : string) (now : Z) :
  Prefs.getString prefs "blocked_history" (TArr []) = inr (TArr history) ->
  Legacy.saveBlockedCall prefs phone now
  = inr (<["blocked_history" := PStr (TArr
            (drop (length history + 1 - 100)
               (history ++ [Legacy.history_entry phone now])))]> prefs).
Proof.
  intros H. unfold Legacy.saveBlockedCall. rewrite H. simpl.
  rewrite trim_front_drop, length_app. reflexivity.
Qed.

Lemma legacy_saveBlockedCall_keeps_last_100_witness :
  Legacy.saveBlockedCall
    {[ "blocked_history" :=
         PStr (TArr (map (fun i => Legacy.history_entry "0612345678" (Z.of_nat i)) (seq 0 100))) ]}
    "0699999999" 200%Z
  = inr (<["blocked_history" :=
            PStr (TArr (map (fun i => Legacy.history_entry "0612345678" (Z.of_nat i)) (seq 1 99)
                        ++ [Legacy.history_entry "0699999999" 200%Z]))]>
         {[ "blocked_history" :=
              PStr (TArr (map (fun i => Legacy.history_entry "0612345678" (Z.of_nat i)) (seq 0 100))) ]}).
Proof.
  rewrite (legacy_saveBlockedCall_keeps_last_100 _
             (map (fun i => Legacy.history_entry "0612345678" (Z.of_nat i)) (seq 0 100))
             "0699999999" 200%Z); reflexivity.
Defined.

Open Scope list_scope.

(** ** Helper lemmas on the bridge readers *)

Lemma read_history_take (arr : list jval) (items : list CurrentBridge.history_item) (n : nat) :
  CurrentBridge.read_history arr = inr items ->
  CurrentBridge.read_history (take n arr) = inr (take n items).
Proof.
  revert items n. induction arr as [|v r IH]; intros items n H.
  - simpl in H. injection H as <-. by rewrite !take_nil.
  - destruct n as [|n]; [reflexivity|]. simpl in H |- *.
    repeat (case_match; try discriminate); simplify_eq/=;
      match goal with
      | Ht : CurrentBridge.read_history (take n r) = _ |- _ =>
          rewrite (IH _ n eq_refl) in Ht; simplify_eq/=; reflexivity
      end.
Qed.

Lemma read_pending_app (a b : list jval) (ia ib : list CurrentBridge.pending_item) :
  CurrentBridge.read_pending a = inr ia -> CurrentBridge.read_pending b = inr ib ->
  CurrentBridge.read_pending (a ++ b) = inr (ia ++ ib).
Proof.
  revert ia. induction a as [|v r IH]; intros ia Ha Hb.
  - simpl in Ha. injection Ha as <-. exact Hb.
  - simpl in Ha |- *.
    destruct (CurrentBridge.read_pending r) as [e|l0] eqn:Hr;
      [by repeat (case_match; try discriminate)|].
    rewrite (IH l0 eq_refl Hb).
    repeat (case_match; try discriminate); simplify_eq/=; reflexivity.
Qed.

Lemma get_field_put_eq (obj : JsonObject.fields) (k : string) (v : jval) :
  JsonObject.get_field (JsonObject.put obj k v) k = Some v.
Proof.
  induction obj as [|[k0 x] r IH]; simpl.
  - by rewrite String.eqb_refl.
  - destruct (String.eqb k0 k) eqn:E; simpl; rewrite E; [reflexivity | exact IH].
Qed.

Lemma get_field_put_ne (obj : JsonObject.fields) (k k' : string) (v : jval) :
  k <> k' -> JsonObject.get_field (JsonObject.put obj k v) k' = JsonObject.get_field obj k'.
Proof.
  intros Hne. induction obj as [|[k0 x] r IH]; simpl.
  - destruct (String.eqb k k') eqn:E; [apply String.eqb_eq in E; congruence | reflexivity].
  - destruct (String.eqb k0 k) eqn:E; simpl.
    + apply String.eqb_eq in E as ->.
      destruct (String.eqb k k') eqn:E'; [apply String.eqb_eq in E'; congruence | reflexivity].
    + destruct (String.eqb k0 k'); [reflexivity | exact IH].
Qed.

Lemma read_pending_put_status (obj : JsonObject.fields) (r : list jval)
    (it : CurrentBridge.pending_item) (its : list CurrentBridge.pending_item) (status : string) :
  CurrentBridge.read_pending (JObj obj :: r) = inr (it :: its) ->
  CurrentBridge.read_pending (JObj (JsonObject.put obj "status" (JStr status)) :: r)
  = inr ({| CurrentBridge.pending_phone_number := CurrentBridge.pending_phone_number it;
            CurrentBridge.pending_timestamp := CurrentBridge.pending_timestamp it;
            CurrentBridge.pending_status := status |} :: its).
Proof.
  intros H. simpl in H |- *.
  unfold JsonObject.getString, JsonObject.getLong in *.
  rewrite get_field_put_eq.
  rewrite !get_field_put_ne by discriminate.
  repeat (case_match; try discriminate); simplify_eq/=; reflexivity.
Qed.

Lemma update_first_skip (a b : list jval) (ia : list CurrentBridge.pending_item)
    (phone status : string) :
  CurrentBridge.read_pending a = inr ia ->
  Forall (fun it => CurrentBridge.pending_phone_number it <> phone) ia ->
  CurrentService.update_first (a ++ b) phone status
  = match CurrentService.update_first b phone status with
    | inl e => inl e
    | inr b' => inr (a ++ b')
    end.
Proof.
  revert ia. induction a as [|v r IH]; intros ia Ha Hf.
  - simpl. by destruct (CurrentService.update_first b phone status).
  - simpl in Ha |- *.
    destruct v as [| | | | |obj]; try discriminate. simpl in Ha |- *.
    destruct (JsonObject.getString obj "phone_number") as [|ph] eqn:Eph; [discriminate|].
    destruct (CurrentBridge.read_pending r) as [|l0] eqn:Hr;
      [by repeat (case_match; try discriminate)|].
    destruct (JsonObject.getLong obj "timestamp"); [discriminate|].
    destruct (JsonObject.getString obj "status"); [discriminate|].
    injection Ha as <-. inversion Hf as [|? ? Hne Hf']; subst. simpl in Hne.
    destruct (String.eqb ph phone) eqn:E; [apply String.eqb_eq in E; congruence|].
    rewrite (IH l0 eq_refl Hf').
    by destruct (CurrentService.update_first b phone status).
Qed.

Lemma pending_add_read (prefs : shared_prefs) (items : list CurrentBridge.pending_item)
    (phone status : string) (now : Z) :
  CurrentBridge.getPendingScreenings prefs = inr items ->
  exists arr,
    Prefs.getString prefs Current.PREF_PENDING_SCREENINGS (TArr []) = inr (TArr arr)
    /\ CurrentBridge.read_pending arr = inr items
    /\ CurrentService.addToPendingScreenings prefs phone status now
       = <[Current.PREF_PENDING_SCREENINGS :=
            PStr (TArr (arr ++ [JObj (CurrentService.pending_fields phone now status)]))]> prefs.
Proof.
  unfold CurrentBridge.getPendingScreenings, CurrentService.addToPendingScreenings.
  destruct (Prefs.getString prefs Current.PREF_PENDING_SCREENINGS (TArr [])) as [|[arr|s]];
    simpl; try discriminate.
  intros H. by exists arr.
Qed.

Lemma history_add_read (prefs : shared_prefs) (items : list CurrentBridge.history_item)
    (phone reason : string) (now : Z) :
  CurrentBridge.getBlockedCallHistory prefs = inr items ->
  CurrentBridge.getBlockedCallHistory (Current.addToBlockedHistory prefs phone reason now)
  = inr ({| CurrentBridge.item_phone_number := phone; CurrentBridge.item_blocked_at := now;
            CurrentBridge.item_reason := Some reason |} :: take 99 items).
Proof.
  unfold CurrentBridge.getBlockedCallHistory, Current.addToBlockedHistory.
  destruct (Prefs.getString prefs Current.PREF_BLOCKED_CALL_HISTORY (TArr [])) as [|[arr|s]] eqn:E;
    simpl; try discriminate.
  intros H. unfold Prefs.getString. rewrite lookup_insert_eq. simpl.
  rewrite take_min_length, (read_history_take arr items 99 H). reflexivity.
Qed.

(** ** Round trips of the current bridge and service *)

(** [X6] After [addToBlockedHistory], [getBlockedCallHistory] returns
    the new call first (its number, time and reason), followed by the
    99 most recent of the calls it returned before. *)
Theorem addToBlockedHistory_then_getBlockedCallHistory (prefs : shared_prefs)
    (items : list CurrentBridge.history_item) (phone reason : string) (now : Z) :
  CurrentBridge.getBlockedCallHistory prefs = inr items ->
  CurrentBridge.getBlockedCallHistory (Current.addToBlockedHistory prefs phone reason now)
  = inr ({| CurrentBridge.item_phone_number := phone; CurrentBridge.item_blocked_at := now;
            CurrentBridge.item_reason := Some reason |} :: take 99 items).
Proof.
  apply history_add_read.
Qed.

Lemma addToBlockedHistory_then_getBlockedCallHistory_witness :
  CurrentBridge.getBlockedCallHistory
    (Current.addToBlockedHistory
       {[ Current.PREF_BLOCKED_CALL_HISTORY :=
            PStr (TArr (map (fun i => Current.history_entry "0612345678" (Z.of_nat i) "spam")
                          (seq 0 100))) ]}
       "0699999999" "inconnu" 200%Z)
  = inr ({| CurrentBridge.item_phone_number := "0699999999"; CurrentBridge.item_blocked_at := 200%Z;
            CurrentBridge.item_reason := Some "inconnu" |}
         :: map (fun i => {| CurrentBridge.item_phone_number := "0612345678";
                             CurrentBridge.item_blocked_at := Z.of_nat i;
                             CurrentBridge.item_reason := Some "spam" |}) (seq 0 99)).
Proof.
  rewrite (addToBlockedHistory_then_getBlockedCallHistory _
             (map (fun i => {| CurrentBridge.item_phone_number := "0612345678";
                               CurrentBridge.item_blocked_at := Z.of_nat i;
                               CurrentBridge.item_reason := Some "spam" |}) (seq 0 100))
             "0699999999" "inconnu" 200%Z); vm_compute; reflexivity.
Defined.

(** [X7] After [addToPendingScreenings], [getPendingScreenings] returns
    the screenings it returned before followed by the new one (number,
    time, status) at the end. *)
Theorem addToPendingScreenings_then_getPendingScreenings (prefs : shared_prefs)
    (items : list CurrentBridge.pending_item) (phone status : string) (now : Z) :
  CurrentBridge.getPendingScreenings prefs = inr items ->
  CurrentBridge.getPendingScreenings (CurrentService.addToPendingScreenings prefs phone status now)
  = inr (items ++ [{| CurrentBridge.pending_phone_number := phone;
                      CurrentBridge.pending_timestamp := now;
                      CurrentBridge.pending_status := status |}]).
Proof.
  intros H. destruct (pending_add_read prefs items phone status now H) as (arr & _ & Hr & ->).
  unfold CurrentBridge.getPendingScreenings, Prefs.getString. rewrite lookup_insert_eq. simpl.
  by apply read_pending_app.
Qed.

Lemma addToPendingScreenings_then_getPendingScreenings_witness :
  CurrentBridge.getPendingScreenings
    (CurrentService.addToPendingScreenings
       {[ Current.PREF_PENDING_SCREENINGS :=
            PStr (TArr [JObj (CurrentService.pending_fields "0611111111" 1%Z "message_delivered");
                        JObj (CurrentService.pending_fields "0622222222" 2%Z "speaking")]) ]}
       "0633333333" "answering" 3%Z)
  = inr [{| CurrentBridge.pending_phone_number := "0611111111";
            CurrentBridge.pending_timestamp := 1%Z;
            CurrentBridge.pending_status := "message_delivered" |};
         {| CurrentBridge.pending_phone_number := "0622222222";
            CurrentBridge.pending_timestamp := 2%Z;
            CurrentBridge.pending_status := "speaking" |};
         {| CurrentBridge.pending_phone_number := "0633333333";
            CurrentBridge.pending_timestamp := 3%Z;
            CurrentBridge.pending_status := "answering" |}].
Proof.
  rewrite (addToPendingScreenings_then_getPendingScreenings _
             [{| CurrentBridge.pending_phone_number := "0611111111";
                 CurrentBridge.pending_timestamp := 1%Z;
                 CurrentBridge.pending_status := "message_delivered" |};
              {| CurrentBridge.pending_phone_number := "0622222222";
                 CurrentBridge.pending_timestamp := 2%Z;
                 CurrentBridge.pending_status := "speaking" |}]
             "0633333333" "answering" 3%Z); reflexivity.
Defined.

(** [X8] [updatePendingScreening] changes the status of the first
    screening with that number only: the earlier screenings (other
    numbers), the later ones (even with the same number) and the number
    and time of the updated one stay as they were. *)
Theorem updatePendingScreening_first_match (prefs : shared_prefs)
    (before after : list CurrentBridge.pending_item) (it : CurrentBridge.pending_item)
    (phone status : string) :
  CurrentBridge.getPendingScreenings prefs = inr (before ++ it :: after) ->
  Forall (fun x => CurrentBridge.pending_phone_number x <> phone) before ->
  CurrentBridge.pending_phone_number it = phone ->
  CurrentBridge.getPendingScreenings (CurrentService.updatePendingScreening prefs phone status)
  = inr (before ++ {| CurrentBridge.pending_phone_number := phone;
                      CurrentBridge.pending_timestamp := CurrentBridge.pending_timestamp it;
                      CurrentBridge.pending_status := status |} :: after).
Proof.
  unfold CurrentBridge.getPendingScreenings, CurrentService.updatePendingScreening.
  destruct (Prefs.getString prefs Current.PREF_PENDING_SCREENINGS (TArr [])) as [|[arr|s]];
    simpl; try discriminate.
  intros H Hf Hit.
  (* split the stored array where [before] ends *)
  assert (Hsplit : forall (arr : list jval) (pre : list CurrentBridge.pending_item),
    CurrentBridge.read_pending arr = inr (pre ++ it :: after) ->
    exists a obj r, arr = a ++ JObj obj :: r /\ CurrentBridge.read_pending a = inr pre
      /\ CurrentBridge.read_pending (JObj obj :: r) = inr (it :: after)).
  { clear. intros arr0. induction arr0 as [|v r IH]; intros pre Hr.
    - simpl in Hr. injection Hr as Hr. destruct pre; discriminate.
    - destruct pre as [|p pre].
      + simpl app in Hr. destruct v as [| | | | |obj]; try discriminate.
        exists [], obj, r. by split.
      + simpl in Hr. destruct v as [| | | | |obj0]; try discriminate. simpl in Hr.
        destruct (CurrentBridge.read_pending r) as [|l0] eqn:Hr0;
          [by repeat (case_match; try discriminate)|].
        destruct (JsonObject.getString obj0 "phone_number") as [|ph] eqn:E1; [discriminate|].
        destruct (JsonObject.getLong obj0 "timestamp") as [|ts] eqn:E2; [discriminate|].
        destruct (JsonObject.getString obj0 "status") as [|st] eqn:E3; [discriminate|].
        injection Hr as <- Hl0.
        destruct (IH pre (f_equal inr Hl0)) as (a & obj' & r' & -> & Ha & Ho).
        exists (JObj obj0 :: a), obj', r'. split; [reflexivity|]. split; [|exact Ho].
        simpl. by rewrite E1, E2, E3, Ha. }
  destruct (Hsplit arr before H) as (a & obj & r & -> & Ha & Ho).
  rewrite (update_first_skip a (JObj obj :: r) before phone status Ha Hf).
  assert (Hph : JsonObject.getString obj "phone_number" = inr phone).
  { simpl in Ho. repeat (case_match; try discriminate); simplify_eq/=; reflexivity. }
  simpl. rewrite Hph, String.eqb_refl. simpl.
  unfold Prefs.getString. rewrite lookup_insert_eq. simpl.
  apply read_pending_app; [exact Ha|].
  rewrite <- Hit. by apply read_pending_put_status.
Qed.

Lemma updatePendingScreening_first_match_witness :
  CurrentBridge.getPendingScreenings
    (CurrentService.updatePendingScreening
       {[ Current.PREF_PENDING_SCREENINGS :=
            PStr (TArr [JObj (CurrentService.pending_fields "0612345678" 1%Z "answering");
                        JObj (CurrentService.pending_fields "0612345678" 2%Z "answering")]) ]}
       "0612345678" "speaking")
  = inr [{| CurrentBridge.pending_phone_number := "0612345678";
            CurrentBridge.pending_timestamp := 1%Z;
            CurrentBridge.pending_status := "speaking" |};
         {| CurrentBridge.pending_phone_number := "0612345678";
            CurrentBridge.pending_timestamp := 2%Z;
            CurrentBridge.pending_status := "answering" |}].
Proof.
  refine (updatePendingScreening_first_match _ []
            [{| CurrentBridge.pending_phone_number := "0612345678";
                CurrentBridge.pending_timestamp := 2%Z;
                CurrentBridge.pending_status := "answering" |}]
            {| CurrentBridge.pending_phone_number := "0612345678";
               CurrentBridge.pending_timestamp := 1%Z;
               CurrentBridge.pending_status := "answering" |}
            "0612345678" "speaking" _ _ _).
  - reflexivity.
  - constructor.
  - reflexivity.
Defined.

(** ** Settings and clearing in the current bridge *)

(** [X9] Each of the setters [setBlockUnknownNumbers],
    [setAIScreeningEnabled] and [setAIScreeningDelay] changes only its
    own field of [getSettings], and [isAIScreeningEnabled] and
    [getAIScreeningDelay] read back the value just set. *)
Theorem bridge_setters_getSettings (prefs : shared_prefs) (s : Current.settings) (b : bool) (d : Z) :
  Current.getSettings prefs = inr s ->
  Current.getSettings (fst (CurrentBridge.setBlockUnknownNumbers b prefs))
    = inr {| Current.auto_block_spam := Current.auto_block_spam s;
             Current.block_unknown_numbers := b;
             Current.ai_screening_enabled := Current.ai_screening_enabled s;
             Current.ai_screening_delay := Current.ai_screening_delay s |}
  /\ Current.getSettings (fst (CurrentBridge.setAIScreeningEnabled b prefs))
    = inr {| Current.auto_block_spam := Current.auto_block_spam s;
             Current.block_unknown_numbers := Current.block_unknown_numbers s;
             Current.ai_screening_enabled := b;
             Current.ai_screening_delay := Current.ai_screening_delay s |}
  /\ Current.getSettings (fst (CurrentBridge.setAIScreeningDelay d prefs))
    = inr {| Current.auto_block_spam := Current.auto_block_spam s;
             Current.block_unknown_numbers := Current.block_unknown_numbers s;
             Current.ai_screening_enabled := Current.ai_screening_enabled s;
             Current.ai_screening_delay := d |}
  /\ CurrentBridge.isAIScreeningEnabled (fst (CurrentBridge.setAIScreeningEnabled b prefs)) = inr b
  /\ CurrentBridge.getAIScreeningDelay (fst (CurrentBridge.setAIScreeningDelay d prefs)) = inr d.
Proof.
  intros H.
  unfold Current.getSettings, CurrentBridge.setBlockUnknownNumbers,
    CurrentBridge.setAIScreeningEnabled, CurrentBridge.setAIScreeningDelay,
    CurrentBridge.isAIScreeningEnabled, CurrentBridge.getAIScreeningDelay,
    getBoolean, getInt in *; simpl.
  rewrite !lookup_insert_eq.
  rewrite !lookup_insert_ne by discriminate.
  repeat (case_match; try discriminate); simplify_eq/=; repeat split.
Qed.

Lemma bridge_setters_getSettings_witness :
  CurrentBridge.getAIScreeningDelay (fst (CurrentBridge.setAIScreeningDelay 5%Z ∅)) = inr 5%Z.
Proof.
  refine (proj2 (proj2 (proj2 (proj2 (bridge_setters_getSettings ∅ _ false 5%Z _))))).
  reflexivity.
Defined.

(** [X10] After [clearBlockedCallHistory] the history reads back empty
    and the pending screenings are untouched; after
    [clearPendingScreenings] the pending screenings read back empty and
    the history is untouched. This holds also when the stored text was
    unreadable before. *)
Theorem clear_then_get (prefs : shared_prefs) :
  CurrentBridge.getBlockedCallHistory (fst (CurrentBridge.clearBlockedCallHistory prefs)) = inr []
  /\ CurrentBridge.getPendingScreenings (fst (CurrentBridge.clearBlockedCallHistory prefs))
     = CurrentBridge.getPendingScreenings prefs
  /\ CurrentBridge.getPendingScreenings (fst (CurrentBridge.clearPendingScreenings prefs)) = inr []
  /\ CurrentBridge.getBlockedCallHistory (fst (CurrentBridge.clearPendingScreenings prefs))
     = CurrentBridge.getBlockedCallHistory prefs.
Proof.
  unfold CurrentBridge.getBlockedCallHistory, CurrentBridge.getPendingScreenings,
    CurrentBridge.clearBlockedCallHistory, CurrentBridge.clearPendingScreenings,
    Prefs.getString; simpl.
  rewrite !lookup_insert_eq. rewrite !lookup_insert_ne by discriminate.
  repeat split.
Qed.

(** ** The screening decision of the current service *)

Lemma addToBlockedHistory_frame (prefs : shared_prefs) (phone reason : string) (now : Z) (k : string) :
  k <> Current.PREF_BLOCKED_CALL_HISTORY ->
  Current.addToBlockedHistory prefs phone reason now !! k = prefs !! k.
Proof.
  intros Hk. unfold Current.addToBlockedHistory.
  repeat case_match; try reflexivity. by rewrite lookup_insert_ne by congruence.
Qed.

Lemma addToPendingScreenings_frame (prefs : shared_prefs) (phone status : string) (now : Z) (k : string) :
  k <> Current.PREF_PENDING_SCREENINGS ->
  CurrentService.addToPendingScreenings prefs phone status now !! k = prefs !! k.
Proof.
  intros Hk. unfold CurrentService.addToPendingScreenings.
  repeat case_match; try reflexivity. by rewrite lookup_insert_ne by congruence.
Qed.

(** [X11] With auto-block on, a call from a number on the blocked list
    is disallowed and rejected, and the history then reads back with
    this call first, reason "Numéro spam connu", followed by the 99 most
    recent earlier calls. *)
Theorem onScreenCall_blocks_listed_number (prefs : shared_prefs) (phone : string)
    (inContacts : bool) (now : Z) (bu ai : bool) (items : list CurrentBridge.history_item) :
  getBoolean prefs Current.PREF_AUTO_BLOCK_ENABLED true = inr true ->
  getBoolean prefs Current.PREF_BLOCK_UNKNOWN false = inr bu ->
  getBoolean prefs Current.PREF_AI_SCREENING_ENABLED false = inr ai ->
  Current.isNumberBlocked prefs phone = true ->
  CurrentBridge.getBlockedCallHistory prefs = inr items ->
  snd (CurrentService.onScreenCall prefs phone inContacts now) = inr CurrentService.block_response
  /\ CurrentBridge.getBlockedCallHistory (fst (CurrentService.onScreenCall prefs phone inContacts now))
     = inr ({| CurrentBridge.item_phone_number := phone; CurrentBridge.item_blocked_at := now;
               CurrentBridge.item_reason := Some CurrentService.REASON_SPAM |} :: take 99 items).
Proof.
  intros H1 H2 H3 Hb Hh. unfold CurrentService.onScreenCall.
  rewrite H1, H2, H3, Hb. simpl. split; [reflexivity|].
  by apply history_add_read.
Qed.

Lemma onScreenCall_blocks_listed_number_witness :
  snd (CurrentService.onScreenCall
         {[ Current.PREF_BLOCKED_NUMBERS := PStr (TArr [JStr "0612345678"]) ]}
         "+33612345678" true 7%Z) = inr CurrentService.block_response.
Proof.
  refine (proj1 (onScreenCall_blocks_listed_number _ "+33612345678" true 7%Z false false [] _ _ _ _ _));
    reflexivity.
Defined.

(** [X12] With "block unknown numbers" on, every call from a number not
    in the contacts is disallowed and rejected and recorded in the
    history, whatever the other settings and the blocked list. *)
Theorem onScreenCall_blocks_unknown_callers (prefs : shared_prefs) (phone : string) (now : Z)
    (auto ai : bool) :
  getBoolean prefs Current.PREF_AUTO_BLOCK_ENABLED true = inr auto ->
  getBoolean prefs Current.PREF_BLOCK_UNKNOWN false = inr true ->
  getBoolean prefs Current.PREF_AI_SCREENING_ENABLED false = inr ai ->
  CurrentService.onScreenCall prefs phone false now
  = (Current.addToBlockedHistory prefs phone
       (if auto && Current.isNumberBlocked prefs phone
        then CurrentService.REASON_SPAM else CurrentService.REASON_UNKNOWN) now,
     inr CurrentService.block_response).
Proof.
  intros H1 H2 H3. unfold CurrentService.onScreenCall.
  rewrite H1, H2, H3. simpl. by destruct (auto && Current.isNumberBlocked prefs phone).
Qed.

Lemma onScreenCall_blocks_unknown_callers_witness :
  snd (CurrentService.onScreenCall {[ Current.PREF_BLOCK_UNKNOWN := PBool true ]} "0612345678" false 7%Z)
  = inr CurrentService.block_response.
Proof.
  rewrite (onScreenCall_blocks_unknown_callers _ "0612345678" 7%Z true false); reflexivity.
Defined.

(** [X13] A call from a contact is disallowed only when auto-block is on
    and the number matches the blocked list; "block unknown numbers"
    and AI screening never stop a contact. *)
Theorem onScreenCall_contact_disallowed_only_if_listed (prefs p' : shared_prefs) (phone : string)
    (now : Z) (r : CurrentService.call_response) :
  CurrentService.onScreenCall prefs phone true now = (p', inr r) ->
  CurrentService.disallowCall r = true ->
  getBoolean prefs Current.PREF_AUTO_BLOCK_ENABLED true = inr true
  /\ Current.isNumberBlocked prefs phone = true.
Proof.
  unfold CurrentService.onScreenCall.
  destruct (getBoolean prefs Current.PREF_AUTO_BLOCK_ENABLED true) as [|a]; [congruence|].
  destruct (getBoolean prefs Current.PREF_BLOCK_UNKNOWN false) as [|bu]; [congruence|].
  destruct (getBoolean prefs Current.PREF_AI_SCREENING_ENABLED false) as [|ai]; [congruence|].
  destruct a, (Current.isNumberBlocked prefs phone), bu, ai; simpl;
    repeat case_match; intros Hosc Hdis; simplify_eq/=; done.
Qed.

Lemma onScreenCall_contact_disallowed_only_if_listed_witness :
  getBoolean (∅ : shared_prefs) Current.PREF_AUTO_BLOCK_ENABLED true = inr true
  /\ Current.isNumberBlocked {[ Current.PREF_BLOCKED_NUMBERS := PStr (TArr [JStr "0612345678"]) ]}
       "0612345678" = true.
Proof.
  split; [reflexivity|].
  refine (proj2 (onScreenCall_contact_disallowed_only_if_listed _ _ "0612345678" 7%Z
                   CurrentService.block_response _ _)); reflexivity.
Defined.

(** [X14] The call is answered silently for AI screening only when AI
    screening is on and the caller is neither a contact nor on the
    blocked list; the screening is then recorded as pending with status
    "answering". *)
Theorem onScreenCall_ai_screening_only_unknown_unlisted (prefs p' : shared_prefs) (phone : string)
    (inContacts : bool) (now : Z) (r : CurrentService.call_response) :
  CurrentService.onScreenCall prefs phone inContacts now = (p', inr r) ->
  CurrentService.silenceCall r = true ->
  getBoolean prefs Current.PREF_AI_SCREENING_ENABLED false = inr true
  /\ inContacts = false /\ Current.isNumberBlocked prefs phone = false
  /\ p' = CurrentService.addToPendingScreenings prefs phone "answering" now.
Proof.
  unfold CurrentService.onScreenCall.
  destruct (getBoolean prefs Current.PREF_AUTO_BLOCK_ENABLED true) as [|a]; [congruence|].
  destruct (getBoolean prefs Current.PREF_BLOCK_UNKNOWN false) as [|bu]; [congruence|].
  destruct (getBoolean prefs Current.PREF_AI_SCREENING_ENABLED false) as [|ai]; [congruence|].
  destruct a, (Current.isNumberBlocked prefs phone), bu, ai, inContacts; simpl;
    repeat case_match; intros Hosc Hsil; simplify_eq/=; done.
Qed.

Lemma onScreenCall_ai_screening_only_unknown_unlisted_witness :
  getBoolean {[ Current.PREF_AI_SCREENING_ENABLED := PBool true ]}
    Current.PREF_AI_SCREENING_ENABLED false = inr true.
Proof.
  refine (proj1 (onScreenCall_ai_screening_only_unknown_unlisted
    {[ Current.PREF_AI_SCREENING_ENABLED := PBool true ]} _ "0612345678" false 7%Z
    CurrentService.ai_response _ _)); reflexivity.
Defined.

(** [X15] Screening a call writes at most the blocked-call history and
    the pending screenings: the settings, the blocked list and every
    other key are left as they were. *)
Theorem onScreenCall_frame (prefs : shared_prefs) (phone : string) (inContacts : bool) (now : Z)
    (k : string) :
  k <> Current.PREF_BLOCKED_CALL_HISTORY -> k <> Current.PREF_PENDING_SCREENINGS ->
  fst (CurrentService.onScreenCall prefs phone inContacts now) !! k = prefs !! k.
Proof.
  intros Hh Hp. unfold CurrentService.onScreenCall.
  repeat case_match; simpl; try reflexivity;
    first [ by apply addToBlockedHistory_frame | by apply addToPendingScreenings_frame ].
Qed.

Lemma onScreenCall_frame_witness :
  fst (CurrentService.onScreenCall {[ Current.PREF_BLOCK_UNKNOWN := PBool true ]} "0612345678" false 7%Z)
    !! Current.PREF_BLOCK_UNKNOWN = Some (PBool true).
Proof.
  rewrite (onScreenCall_frame _ "0612345678" false 7%Z Current.PREF_BLOCK_UNKNOWN);
    [reflexivity | discriminate | discriminate].
Defined.

(** ** The legacy screening decision *)

(** [X16] In the legacy service, with auto-block off every call is
    allowed and nothing is written, even with "block unknown numbers" on;
    with auto-block and "block unknown numbers" both on, every call is
    disallowed and rejected. *)
Theorem legacy_onScreenCall_switches (prefs : shared_prefs) (phone : string) (now : Z)
    (t h : text) :
  (getBoolean prefs Legacy.AUTO_BLOCK_KEY true = inr false ->
   LegacyService.onScreenCall prefs phone now = (prefs, inr CurrentService.default_response))
  /\ (getBoolean prefs Legacy.AUTO_BLOCK_KEY true = inr true ->
      getBoolean prefs Legacy.BLOCK_UNKNOWN_KEY false = inr true ->
      Prefs.getString prefs Legacy.BLOCKED_NUMBERS_KEY (TArr []) = inr t ->
      Prefs.getString prefs "blocked_history" (TArr []) = inr h ->
      snd (LegacyService.onScreenCall prefs phone now) = inr CurrentService.block_response).
Proof.
  split.
  - intros H. unfold LegacyService.onScreenCall. by rewrite H.
  - intros H1 H2 H3 H4.
    unfold LegacyService.onScreenCall, Legacy.shouldBlockNumber, Legacy.saveBlockedCall.
    rewrite H1, H3, H2, H4. simpl.
    destruct (JSONArray t) as [|l]; [|destruct (Legacy.scan_blocked _ l)];
      destruct (JSONArray h); reflexivity.
Qed.

Lemma legacy_onScreenCall_switches_witness :
  LegacyService.onScreenCall
    (<[Legacy.AUTO_BLOCK_KEY := PBool false]> {[ Legacy.BLOCK_UNKNOWN_KEY := PBool true ]})
    "0699999999" 7%Z
  = (<[Legacy.AUTO_BLOCK_KEY := PBool false]> {[ Legacy.BLOCK_UNKNOWN_KEY := PBool true ]},
     inr CurrentService.default_response)
  /\ snd (LegacyService.onScreenCall
          (<[Legacy.AUTO_BLOCK_KEY := PBool true]>
           (<[Legacy.BLOCK_UNKNOWN_KEY := PBool true]>
            (<[Legacy.BLOCKED_NUMBERS_KEY := PStr (TArr [JStr "0611111111"])]>
             {[ "blocked_history" := PStr (TArr [Legacy.history_entry "0622222222" 1%Z]) ]})))
          "0699999999" 7%Z)
     = inr CurrentService.block_response.
Proof.
  split.
  - apply (proj1 (legacy_onScreenCall_switches _ "0699999999" 7%Z (TArr []) (TArr []))).
    reflexivity.
  - apply (proj2 (legacy_onScreenCall_switches _ "0699999999" 7%Z
                    (TArr [JStr "0611111111"]) (TArr [Legacy.history_entry "0622222222" 1%Z])));
      reflexivity.
Defined.

(** ** Role requests *)

Lemma run_never_resolves (p : RoleRequest.promise_id) (b : bool) (evs : list RoleRequest.event) :
  forall st, st <> Some p ->
  (forall ev, In ev evs -> RoleRequest.requested ev <> Some p) ->
  ~ In (p, b) (snd (RoleRequest.run st evs)).
Proof.
  induction evs as [|ev rest IH]; intros st Hst Hev; simpl; [tauto|].
  assert (Hstep : fst (RoleRequest.step st ev) <> Some p
                  /\ ~ In (p, b) (snd (RoleRequest.step st ev))).
  { assert (Hr := Hev ev (or_introl eq_refl)).
    destruct ev as [q env|q env|rq rc]; simpl in Hr |- *;
      unfold RoleRequest.request_role, RoleRequest.onActivityResult;
      repeat case_match; simpl; split; try congruence; intros Hin;
      repeat destruct Hin as [Hin|Hin]; simplify_eq; congruence. }
  destruct (RoleRequest.step st ev) as [st1 out1] eqn:E.
  destruct (RoleRequest.run st1 rest) as [st2 out2] eqn:E2. simpl in *.
  rewrite in_app_iff. intros [Hin|Hin]; [tauto|].
  assert (Hn := IH st1 (proj1 Hstep) (fun ev' H => Hev ev' (or_intror H))).
  rewrite E2 in Hn. exact (Hn Hin).
Qed.

(** [X17] When a second role request (here for the dialer role) opens
    the system dialog while the first (for call screening) is still
    waiting, the first promise is never resolved, whatever happens
    afterwards (as long as that promise is not passed in again). *)
Theorem superseded_role_promise_never_resolved (st : RoleRequest.module_state)
    (p1 p2 : RoleRequest.promise_id) (env1 env2 : RoleRequest.role_env)
    (rest : list RoleRequest.event) (b : bool) :
  RoleRequest.sdk_at_least_Q env1 && RoleRequest.role_manager_present env1
    && RoleRequest.role_available env1 && negb (RoleRequest.role_held env1) = true ->
  RoleRequest.sdk_at_least_Q env2 && RoleRequest.role_manager_present env2
    && RoleRequest.role_available env2 && negb (RoleRequest.role_held env2) = true ->
  p1 <> p2 ->
  (forall ev, In ev rest -> RoleRequest.requested ev <> Some p1) ->
  ~ In (p1, b) (snd (RoleRequest.run st
       (RoleRequest.RequestCallScreeningRole p1 env1 :: RoleRequest.RequestDialerRole p2 env2 :: rest))).
Proof.
  intros H1 H2 Hne Hrest.
  destruct env1 as [[] [] [] []]; try discriminate.
  destruct env2 as [[] [] [] []]; try discriminate.
  simpl. unfold RoleRequest.request_role. simpl.
  destruct (RoleRequest.run (Some p2) rest) as [st2 out2] eqn:E. simpl.
  assert (Hn := run_never_resolves p1 b rest (Some p2) ltac:(congruence) Hrest).
  rewrite E in Hn. exact Hn.
Qed.

Lemma superseded_role_promise_never_resolved_witness :
  ~ In (1%nat, true) (snd (RoleRequest.run None
       [RoleRequest.RequestCallScreeningRole 1 {| RoleRequest.sdk_at_least_Q := true;
          RoleRequest.role_manager_present := true; RoleRequest.role_available := true;
          RoleRequest.role_held := false |};
        RoleRequest.RequestDialerRole 2 {| RoleRequest.sdk_at_least_Q := true;
          RoleRequest.role_manager_present := true; RoleRequest.role_available := true;
          RoleRequest.role_held := false |};
        RoleRequest.ActivityResult 1002 (-1)])).
Proof.
  apply (superseded_role_promise_never_resolved None 1 2 _ _ [RoleRequest.ActivityResult 1002 (-1)] true);
    [reflexivity | reflexivity | discriminate |].
  intros ev [<- | []]. discriminate.
Defined.

(** [X18] An activity result with request code 1001 or 1002 resolves
    the waiting promise exactly once, with true exactly when the result
    code is RESULT_OK (-1); later results resolve nothing until a new
    request is made. *)
Theorem activity_result_resolves_once (p : RoleRequest.promise_id) (rq rc : Z)
    (rest : list RoleRequest.event) :
  rq = RoleRequest.REQUEST_CODE_CALL_SCREENING \/ rq = RoleRequest.REQUEST_CODE_DIALER ->
  (forall ev, In ev rest -> RoleRequest.requested ev = None) ->
  RoleRequest.run (Some p) (RoleRequest.ActivityResult rq rc :: rest)
  = (None, [(p, Z.eqb rc RoleRequest.RESULT_OK)]).
Proof.
  intros Hrq Hrest. simpl. unfold RoleRequest.onActivityResult.
  replace (Z.eqb rq RoleRequest.REQUEST_CODE_CALL_SCREENING || Z.eqb rq RoleRequest.REQUEST_CODE_DIALER)
    with true by (destruct Hrq as [-> | ->]; reflexivity).
  assert (Hnone : forall evs, (forall ev, In ev evs -> RoleRequest.requested ev = None) ->
                  RoleRequest.run None evs = (None, [])).
  { induction evs as [|ev evs IH]; intros Hevs; simpl; [reflexivity|].
    destruct ev as [q env|q env|rq' rc'].
    - specialize (Hevs _ (or_introl eq_refl)). discriminate.
    - specialize (Hevs _ (or_introl eq_refl)). discriminate.
    - simpl. unfold RoleRequest.onActivityResult.
      match goal with |- context [if ?c then _ else _] => destruct c end;
        simpl; rewrite IH by (intros; apply Hevs; right; assumption); reflexivity. }
  rewrite (Hnone rest Hrest). reflexivity.
Qed.

Lemma activity_result_resolves_once_witness :
  RoleRequest.run (Some 4%nat) [RoleRequest.ActivityResult 1001 (-1); RoleRequest.ActivityResult 1001 0]
  = (None, [(4%nat, true)]).
Proof.
  apply (activity_result_resolves_once 4 1001 (-1) [RoleRequest.ActivityResult 1001 0]);
    [left; reflexivity |].
  intros ev [<- | []]. reflexivity.
Defined.
